(** * Olist dashboard: the filter, aggregation and KPI layer of [dashboard.py]

    A shallow embedding of the data-processing part of the Streamlit script
    [src/dashboard.py].  A pandas [DataFrame] is a list of rows (in index
    order) and a nullable cell is an [option].

    Two parts of numpy are taken as given, each as a class of operations
    with the properties numpy documents: the numbers of a numeric column
    with their sums, quotient and order ([Numeric]: float64 rounds, int64
    wraps, and [Series.sum] and the [groupby] sum are two routines that
    round differently), and the sort behind [sort_values] ([Sorter]: the
    default kind is not stable, so nothing is assumed on the order of equal
    values).  What is proved holds for every such library; [Float64] is
    float64 itself, on the kernel's binary64 numbers, with numpy's pairwise
    sum and the compensated sum of [groupby], and [Rational] is the library
    that never rounds.

    The pandas operations the script calls are in [Module Pandas], the
    script itself in [Module Dashboard]. *)

From Stdlib Require Import List String Ascii Bool Arith ZArith NArith QArith.
From Stdlib Require Import Lia Permutation Sorted.
From Corelib Require Import PrimFloat.
From Corelib Require FloatOps FloatAxioms SpecFloat.
Import ListNotations.

Set Implicit Arguments.

(* ------------------------------------------------------------------ *)
(** ** The pandas operations used by the script *)

Module Pandas.

(** The numbers of a numeric column and numpy's routines on them. *)
Class Numeric : Type := {
  number : Type;
  (** The number 0. *)
  zero : number;
  (** Whether a number is NaN; pandas takes a NaN cell for a missing one. *)
  isnan : number -> bool;
  (** The comparison [<=]. *)
  num_leb : number -> number -> bool;
  (** The quotient of a number by a count. *)
  truediv : number -> nat -> number;
  (** [Series.sum()], whose default [skipna=True] ignores missing cells. *)
  series_sum : list (option number) -> number;
  (** The sum [groupby(...).sum()] and [agg(..., "sum")] compute for the
      cells of one group, missing cells ignored. *)
  group_sum : list (option number) -> number
}.

(** What is used of these routines: an empty column sums to 0, and [<=] is
    a total preorder on the numbers that are not NaN. *)
Class NumericSpec (N : Numeric) : Prop := {
  series_sum_nil : series_sum [] = zero;
  num_leb_total : forall a b : number,
    isnan a = false -> isnan b = false ->
    num_leb a b = true \/ num_leb b a = true;
  num_leb_trans : forall a b c : number,
    isnan a = false -> isnan b = false -> isnan c = false ->
    num_leb a b = true -> num_leb b c = true -> num_leb a c = true
}.

(** numpy's sort of the default kind ["quicksort"], as a function that
    rearranges a list into ascending order of a comparison. *)
Class Sorter : Type := {
  quicksort : forall A : Type, (A -> A -> bool) -> list A -> list A
}.

(** What is used of it: the result is a rearrangement of the input, and it
    is ascending when the comparison is a total preorder on the input.  The
    order of equal elements is left open. *)
Class SorterSpec (S : Sorter) : Prop := {
  quicksort_perm : forall (A : Type) (leb : A -> A -> bool) (l : list A),
    Permutation (quicksort leb l) l;
  quicksort_sorted : forall (A : Type) (leb : A -> A -> bool) (l : list A),
    (forall a b, In a l -> In b l -> leb a b = true \/ leb b a = true) ->
    (forall a b c, In a l -> In b l -> In c l ->
                   leb a b = true -> leb b c = true -> leb a c = true) ->
    StronglySorted (fun a b => leb a b = true) (quicksort leb l)
}.

Section Sorting.
Variable A : Type.
Variable leb : A -> A -> bool.

(** Stable ascending insertion: [x] goes in front of the first element
    that is not smaller, hence in front of its ties. *)
Fixpoint insert (x : A) (l : list A) : list A :=
  match l with
  | [] => [x]
  | y :: l' => if leb x y then x :: y :: l' else y :: insert x l'
  end.

(** Insertion sort: Python's [sorted] and the key order of [groupby], both
    on strings, which have no two equal elements to order. *)
Fixpoint stable_sort (l : list A) : list A :=
  match l with
  | [] => []
  | x :: l' => insert x (stable_sort l')
  end.

(** The order a stable sort produces from a list in which [before a b]
    holds of every [a] in front of a [b]: ascending, ties in the order
    they had. *)
Definition stable_le (before : A -> A -> Prop) (a b : A) : Prop :=
  leb a b = true /\ (leb b a = true -> before a b).
End Sorting.

Definition isna {V : Type} (c : option V) : bool :=
  match c with None => true | Some _ => false end.

Definition notna {V : Type} (c : option V) : bool := negb (isna c).

(** A numeric cell as pandas' [isna] sees it: NaN is missing. *)
Definition present {N : Numeric} (c : option number) : option number :=
  match c with
  | Some v => if isnan v then None else Some v
  | None => None
  end.

(** The cells of a column that are present, each paired with its row:
    [items[~mask]] and [idx[~mask]] of [pandas.core.sorting.nargsort]. *)
Fixpoint non_nans {R V : Type} (col : R -> option V) (df : list R)
    : list (V * R) :=
  match df with
  | [] => []
  | r :: df' =>
      match col r with
      | Some v => (v, r) :: non_nans col df'
      | None => non_nans col df'
      end
  end.

(** [DataFrame.sort_values(col, ascending=...)] with the default
    [kind="quicksort"] and [na_position="last"], following [nargsort]: the
    missing cells are set aside, a descending sort reverses the present
    ones, sorts them ascending and reverses the result, and the rows of the
    missing cells are appended. *)
Definition sorted_rows {S : Sorter} {R V : Type} (col : R -> option V)
    (leb : V -> V -> bool) (ascending : bool) (df : list R) : list R :=
  let cmp (a b : V * R) := leb (fst a) (fst b) in
  map snd
    (if ascending then quicksort cmp (non_nans col df)
     else rev (quicksort cmp (rev (non_nans col df)))).

Definition sort_values {S : Sorter} {R V : Type} (col : R -> option V)
    (leb : V -> V -> bool) (ascending : bool) (df : list R) : list R :=
  let nan_rows := filter (fun r => isna (col r)) df in
  sorted_rows col leb ascending df ++ nan_rows.

(** [Series.dropna()]. *)
Fixpoint dropna {V : Type} (s : list (option V)) : list V :=
  match s with
  | [] => []
  | Some v :: s' => v :: dropna s'
  | None :: s' => dropna s'
  end.

(** [Series.unique()]: the distinct values in order of first appearance. *)
Fixpoint unique (s : list string) : list string :=
  match s with
  | [] => []
  | x :: s' => x :: filter (fun y => negb (String.eqb x y)) (unique s')
  end.

(** [Series.nunique()], whose default [dropna=True] ignores missing cells. *)
Definition nunique (s : list (option string)) : nat :=
  List.length (unique (dropna s)).

(** [s == v] on a column of nullable strings: a missing cell compares
    false. *)
Definition eq_scalar (c : option string) (v : string) : bool :=
  match c with Some x => String.eqb x v | None => false end.

(** [df[mask]]: the rows whose mask entry is [True]. *)
Definition boolean_index {R : Type} (df : list R) (mask : list bool) : list R :=
  map fst (filter snd (combine df mask)).

(** [mask1 & mask2]. *)
Definition mask_and (m1 m2 : list bool) : list bool :=
  map (fun p => andb (fst p) (snd p)) (combine m1 m2).

(** [df.groupby(by)] with the defaults [sort=True, dropna=True]: one group
    per distinct non-missing key, the groups in ascending key order, each
    holding its rows in their original order. *)
Definition groupby {R : Type} (by_ : R -> option string) (df : list R)
    : list (string * list R) :=
  let keys := stable_sort String.leb (unique (dropna (map by_ df))) in
  map (fun k => (k, filter (fun r => eq_scalar (by_ r) k) df)) keys.

(** [df.take(indices)]: [None] stands for the [IndexError] of an index out
    of range. *)
Fixpoint take {R : Type} (df : list R) (indices : list nat) : option (list R) :=
  match indices with
  | [] => Some []
  | i :: rest =>
      match nth_error df i, take df rest with
      | Some r, Some rs => Some (r :: rs)
      | _, _ => None
      end
  end.

Section Sampling.
(** numpy's generator state, [RandomState(seed)] and
    [RandomState.permutation(n)] are taken as given. *)
Variable RandomState : Type.
Variable seeded : Z -> RandomState.
Variable permutation : RandomState -> nat -> list nat.

(** [df.sample(n, random_state=...)] without replacement and without
    weights: [random_state.choice(len(df), size=n, replace=False)] is
    [permutation(len(df))[:n]], and the rows at these positions are
    taken.  An integer [random_state] seeds a fresh generator; without one
    the ambient generator [np.random] is used.  [None] stands for the
    [ValueError] raised when [n] exceeds the number of rows. *)
Definition sample {R : Type} (n : nat) (random_state : option Z)
    (ambient : RandomState) (df : list R) : option (list R) :=
  let rs := match random_state with
            | Some s => seeded s
            | None => ambient
            end in
  if n <=? List.length df
  then take df (firstn n (permutation rs (List.length df)))
  else None.
End Sampling.

(** *** Exact sums

    The sum of rationals, which no column of the program holds: it serves
    to say what a sum of numbers is worth when no addition rounds. *)
Fixpoint qsum (s : list (option Q)) : Q :=
  match s with
  | [] => 0
  | Some q :: s' => q + qsum s'
  | None :: s' => qsum s'
  end.


Section Exact.
Context {N : Numeric}.
(** [value] reads a number as the rational it stands for. *)
Variable value : number -> Q.

Definition values (s : list (option number)) : list (option Q) :=
  map (option_map value) s.

(** The routine [f] adds the column [s] without rounding, overflow or
    NaN. *)
Definition exact_sum (f : list (option number) -> number)
    (s : list (option number)) : Prop :=
  isnan (f s) = false /\ value (f s) == qsum (values s).
End Exact.

End Pandas.

(* ------------------------------------------------------------------ *)
(** ** The script *)

Module Dashboard.
Import Pandas.

(** A calendar date, as its proleptic ordinal ([datetime.date.toordinal]);
    dates compare as their ordinals do. *)
Definition Date : Type := Z.

(** A parsed [order_purchase_timestamp]: its calendar date and the time
    elapsed since midnight. *)
Record Timestamp : Type := {
  ts_date : Date;
  ts_time_of_day : Z
}.

(** *** Input-file discovery (lines 14-25) *)

Definition main_data : string := "main_data.csv".

(** Whether a file name matches the glob pattern ["*.csv"]. *)
Definition is_csv (name : string) : bool :=
  let n := String.length name in
  (4 <=? n) && String.eqb (substring (n - 4) 4 name) ".csv".

Inductive Startup : Type :=
| Loaded (data_path : string)   (* [df = load_data(DATA_PATH)] is reached *)
| Halted (error : string).      (* [st.error(...)] then [st.stop()] *)

(** [dir] lists the names of the entries of [DATA_DIR]. *)
Definition discover (dir : list string) : Startup :=
  if existsb (String.eqb main_data) dir then Loaded main_data
  else
    let csv_files := stable_sort String.leb (filter is_csv dir) in
    match csv_files with
    | [] => Halted "Tidak ada file .csv di folder"
    | first :: _ => Loaded first
    end.

(** [.dt.date] on a cell. *)
Definition dt_date (c : option Timestamp) : option Date :=
  match c with Some t => Some (ts_date t) | None => None end.

(** [dates >= d] and [dates <= d] on a cell: a missing date compares
    false. *)
Definition date_ge (c : option Date) (d : Date) : bool :=
  match c with Some x => (d <=? x)%Z | None => false end.

Definition date_le (c : option Date) (d : Date) : bool :=
  match c with Some x => (x <=? d)%Z | None => false end.

Definition All : string := "(All)".

(** Timestamps compare by date, then by time of day. *)
Definition ts_leb (a b : Timestamp) : bool :=
  (ts_date a <? ts_date b)%Z
  || ((ts_date a =? ts_date b)%Z
      && (ts_time_of_day a <=? ts_time_of_day b)%Z).

(** [Series.min()] and [Series.max()] of a datetime column: missing cells
    are skipped, and [None] is the [NaT] of a column without any cell. *)
Fixpoint ts_min (s : list (option Timestamp)) : option Timestamp :=
  match s with
  | [] => None
  | None :: s' => ts_min s'
  | Some t :: s' =>
      match ts_min s' with
      | None => Some t
      | Some m => Some (if ts_leb t m then t else m)
      end
  end.

Fixpoint ts_max (s : list (option Timestamp)) : option Timestamp :=
  match s with
  | [] => None
  | None :: s' => ts_max s'
  | Some t :: s' =>
      match ts_max s' with
      | None => Some t
      | Some m => Some (if ts_leb m t then t else m)
      end
  end.

(** [.head(n)]. *)
Definition head {R : Type} (n : nat) (df : list R) : list R := firstn n df.

(** [customers.replace(0, pd.NA)] on a cell. *)
Definition replace_0_NA (customers : nat) : option nat :=
  if customers =? 0 then None else Some customers.

Fixpoint index_of (k : string) (l : list string) : option nat :=
  match l with
  | [] => None
  | x :: l' => if String.eqb k x then Some 0%nat
               else option_map S (index_of k l')
  end.

Section Script.
Context {N : Numeric} {S : Sorter}.

(** One row of the dataset, with the columns the script reads.  Every cell
    of a CSV file may be empty; a numeric cell that is present is not
    NaN. *)
Record Row : Type := {
  order_id : option string;
  customer_unique_id : option string;
  customer_state : option string;
  rfm_segment : option string;
  order_revenue : option number;
  order_purchase_timestamp : option Timestamp;
  geolocation_lat : option number;
  geolocation_lng : option number
}.

Definition DataFrame : Type := list Row.

(** *** The filter (lines 89-95) *)

Definition df_f (df : DataFrame) (start_date end_date : Date)
    (state seg : string) : DataFrame :=
  let dates := map (fun r => dt_date (order_purchase_timestamp r)) df in
  let df_f := boolean_index df
                (mask_and (map (fun c => date_ge c start_date) dates)
                          (map (fun c => date_le c end_date) dates)) in
  let df_f := if negb (String.eqb state All)
              then boolean_index df_f
                     (map (fun r => eq_scalar (customer_state r) state) df_f)
              else df_f in
  let df_f := if negb (String.eqb seg All)
              then boolean_index df_f
                     (map (fun r => eq_scalar (rfm_segment r) seg) df_f)
              else df_f in
  df_f.

(** The filter as the specification words it: the purchase date lies
    within the inclusive bounds, the state matches unless the state filter
    is the sentinel, and the segment matches unless the segment filter is
    the sentinel. *)
Definition keeps (start_date end_date : Date) (state seg : string)
    (r : Row) : Prop :=
  (exists t, order_purchase_timestamp r = Some t /\
             (start_date <= ts_date t <= end_date)%Z) /\
  (state = All \/ customer_state r = Some state) /\
  (seg = All \/ rfm_segment r = Some seg).

(** The same condition as a test on a row. *)
Definition keepsb (start_date end_date : Date) (state seg : string)
    (r : Row) : bool :=
  match order_purchase_timestamp r with
  | Some t => (start_date <=? ts_date t)%Z && (ts_date t <=? end_date)%Z
  | None => false
  end
  && (String.eqb state All || eq_scalar (customer_state r) state)
  && (String.eqb seg All || eq_scalar (rfm_segment r) seg).

(** *** The aggregations (lines 29-63) *)

Record SegmentCustomers : Type := {
  sc_rfm_segment : string;
  sc_customers : nat
}.

Definition create_rfm_segment_df (df : DataFrame) : list SegmentCustomers :=
  sort_values (fun t => Some (sc_customers t)) Nat.leb false
    (map (fun g => {| sc_rfm_segment := fst g;
                      sc_customers := nunique (map customer_unique_id (snd g)) |})
         (groupby rfm_segment df)).

Record SegmentRevenue : Type := {
  sr_rfm_segment : string;
  sr_total_revenue : number
}.

Definition create_rfm_revenue_df (df : DataFrame) : list SegmentRevenue :=
  sort_values (fun t => present (Some (sr_total_revenue t))) num_leb false
    (map (fun g => {| sr_rfm_segment := fst g;
                      sr_total_revenue :=
                        group_sum (map order_revenue (snd g)) |})
         (groupby rfm_segment df)).

Record SegmentAverage : Type := {
  sa_rfm_segment : string;
  sa_customers : nat;
  sa_total_revenue : number;
  sa_avg_revenue_per_customer : option number     (* [None] is [pd.NA] *)
}.

(** [total_revenue / c] on a cell: dividing by [pd.NA] gives [pd.NA]. *)
Definition div_cell (total_revenue : number) (c : option nat)
    : option number :=
  match c with
  | Some n => Some (truediv total_revenue n)
  | None => None
  end.

Definition create_avg_rev_per_customer_df (df : DataFrame)
    : list SegmentAverage :=
  let avg_df :=
    map (fun g =>
           let customers := nunique (map customer_unique_id (snd g)) in
           let total_revenue := group_sum (map order_revenue (snd g)) in
           {| sa_rfm_segment := fst g;
              sa_customers := customers;
              sa_total_revenue := total_revenue;
              sa_avg_revenue_per_customer :=
                div_cell total_revenue (replace_0_NA customers) |})
        (groupby rfm_segment df) in
  sort_values (fun t => present (sa_avg_revenue_per_customer t)) num_leb false
    avg_df.

Record StatePerf : Type := {
  sp_customer_state : string;
  sp_total_orders : nat;
  sp_total_revenue : number
}.

Definition create_state_perf_df (df : DataFrame) : list StatePerf :=
  sort_values (fun t => present (Some (sp_total_revenue t))) num_leb false
    (map (fun g => {| sp_customer_state := fst g;
                      sp_total_orders := nunique (map order_id (snd g));
                      sp_total_revenue :=
                        group_sum (map order_revenue (snd g)) |})
         (groupby customer_state df)).

(** The two state charts (lines 149-167), both read from the one
    [state_perf] table. *)
Definition fig4_data (df_f : DataFrame) : list StatePerf :=
  let state_perf := create_state_perf_df df_f in
  head 10 state_perf.

Definition fig5_data (df_f : DataFrame) : list StatePerf :=
  let state_perf := create_state_perf_df df_f in
  head 10 (sort_values (fun t => Some (sp_total_orders t)) Nat.leb false
             state_perf).

(** *** The KPIs (lines 99-102) *)

Definition total_revenue (df_f : DataFrame) : number :=
  series_sum (map order_revenue df_f).

Definition total_orders (df_f : DataFrame) : nat :=
  nunique (map order_id df_f).

Definition total_customers (df_f : DataFrame) : nat :=
  nunique (map customer_unique_id df_f).

Definition aov (df_f : DataFrame) : number :=
  if negb (total_orders df_f =? 0)
  then truediv (total_revenue df_f) (total_orders df_f)
  else zero.

(** *** Column sums and orders of the summary tables *)

(** [seg_rev_df["total_revenue"].sum()]. *)
Definition segment_revenue_sum (df_f : DataFrame) : number :=
  series_sum (map (fun t => present (Some (sr_total_revenue t)))
                (create_rfm_revenue_df df_f)).

(** The rows with a segment and the rows without one. *)
Definition segmented (df_f : DataFrame) : DataFrame :=
  filter (fun r => notna (rfm_segment r)) df_f.

Definition unsegmented (df_f : DataFrame) : DataFrame :=
  filter (fun r => isna (rfm_segment r)) df_f.

(** The revenue of the rows without a segment. *)
Definition null_segment_revenue (df_f : DataFrame) : number :=
  series_sum (map order_revenue (unsegmented df_f)).

(** More customers first. *)
Definition customers_desc (a b : SegmentCustomers) : Prop :=
  (sc_customers b <= sc_customers a)%nat.

(** The segments of a dataset in the order of their first appearance. *)
Definition first_seen (df_f : DataFrame) : list string :=
  unique (dropna (map rfm_segment df_f)).

(** The tie rule as the specification words it: of two rows of the segment
    customer count with equal [customers], the one whose segment appears
    first in the input comes first. *)
Definition ties_in_first_seen_order (df_f : DataFrame) : Prop :=
  forall i j a b,
    (i < j)%nat ->
    nth_error (create_rfm_segment_df df_f) i = Some a ->
    nth_error (create_rfm_segment_df df_f) j = Some b ->
    sc_customers a = sc_customers b ->
    exists p q, index_of (sc_rfm_segment a) (first_seen df_f) = Some p
             /\ index_of (sc_rfm_segment b) (first_seen df_f) = Some q
             /\ (p < q)%nat.

(** Larger averages first. *)
Definition avg_desc (a b : SegmentAverage) : Prop :=
  exists x y, sa_avg_revenue_per_customer a = Some x
           /\ sa_avg_revenue_per_customer b = Some y
           /\ num_leb y x = true.

(** The rows of the dataset that make up the group of the key [k]. *)
Definition segment_rows (df_f : DataFrame) (k : string) : DataFrame :=
  filter (fun r => eq_scalar (rfm_segment r) k) df_f.


(** Every sum of revenue that the segment revenue table and the KPI
    [total_revenue] involve is added without rounding. *)
Definition revenue_sums_exact (value : number -> Q) (df_f : DataFrame)
    : Prop :=
  exact_sum value series_sum (map order_revenue df_f)
  /\ exact_sum value series_sum (map order_revenue (segmented df_f))
  /\ exact_sum value series_sum (map order_revenue (unsegmented df_f))
  /\ (forall k, exact_sum value group_sum
                  (map order_revenue (segment_rows df_f k)))
  /\ exact_sum value series_sum
       (map (fun t => present (Some (sr_total_revenue t)))
          (create_rfm_revenue_df df_f)).

(** *** The map sample (lines 171-176) *)

(** [df.dropna(subset=["geolocation_lat","geolocation_lng"])]. *)
Definition dropna_geo (df : DataFrame) : DataFrame :=
  filter (fun r => notna (geolocation_lat r) && notna (geolocation_lng r)) df.

Inductive MapData : Type :=
| Markers (df_map : DataFrame)   (* the rows drawn on the map *)
| NoGeodata                      (* the [st.info] branch *)
| Raised.                        (* an exception of [sample] *)

Section Map.
Variable RandomState : Type.
Variable seeded : Z -> RandomState.
Variable permutation : RandomState -> nat -> list nat.

(** [has_geo_columns] says whether both coordinate columns are among
    [df_f.columns]; [ambient] is the state of [np.random] when the script
    runs. *)
Definition df_map (has_geo_columns : bool) (ambient : RandomState)
    (df_f : DataFrame) : MapData :=
  if has_geo_columns && (0 <? List.length (dropna_geo df_f))
  then
    let df_map := dropna_geo df_f in
    if 3000 <? List.length df_map
    then match sample seeded permutation 3000 (Some 42%Z) ambient df_map with
         | Some s => Markers s
         | None => Raised
         end
    else Markers df_map
  else NoGeodata.
End Map.

(** *** The sidebar (lines 72-86) *)

(** The bounds offered to the date picker; [None] when no row has a
    timestamp, where the script has no date to offer. *)
Definition min_date (df : DataFrame) : option Date :=
  dt_date (ts_min (map order_purchase_timestamp df)).

Definition max_date (df : DataFrame) : option Date :=
  dt_date (ts_max (map order_purchase_timestamp df)).

(** The choices of the two select boxes: the sentinel, then the values
    present in the column, sorted. *)
Definition state_opt (df : DataFrame) : list string :=
  All :: stable_sort String.leb (unique (dropna (map customer_state df))).

Definition seg_opt (df : DataFrame) : list string :=
  All :: stable_sort String.leb (unique (dropna (map rfm_segment df))).

(** *** Orders of the revenue tables *)

(** A row whose revenue is NaN comes after any row; of two others, the
    one with no less revenue comes first. *)
Definition revenue_desc (a b : SegmentRevenue) : Prop :=
  isnan (sr_total_revenue b) = true
  \/ num_leb (sr_total_revenue b) (sr_total_revenue a) = true.

Definition state_revenue_desc (a b : StatePerf) : Prop :=
  isnan (sp_total_revenue b) = true
  \/ num_leb (sp_total_revenue b) (sp_total_revenue a) = true.

End Script.

End Dashboard.

(* ------------------------------------------------------------------ *)
(** ** Three libraries *)

Module Libraries.
Import Pandas.

(** *** The library that never rounds *)

Definition Rational : Numeric :=
  {| number := Q;
     zero := 0;
     isnan := fun _ => false;
     num_leb := Qle_bool;
     truediv := fun x n => x / inject_Z (Z.of_nat n);
     series_sum := qsum;
     group_sum := qsum |}.

(** *** Insertion sort as the sort *)

Definition Insertion : Sorter :=
  {| quicksort := fun A leb l => stable_sort leb l |}.

(** *** float64 *)

(** A count as a float64; exact below 2^53. *)
Fixpoint f64_of_nat (n : nat) : float :=
  match n with
  | O => 0%float
  | S k => (f64_of_nat k + 1)%float
  end.

(** The cells of a column with 0 in place of the missing ones, NaN among
    them, as [nansum] prepares them. *)
Definition f64_filled (s : list (option float)) : list float :=
  map (fun c => match c with
                | Some x => if PrimFloat.is_nan x then 0%float else x
                | None => 0%float
                end) s.

(** Adding the numbers of [l] to [acc], one after the other. *)
Definition f64_add_all (acc : float) (l : list float) : float :=
  fold_left PrimFloat.add l acc.

(** Adding a block of eight numbers to eight running sums. *)
Fixpoint f64_add_block (r block : list float) : list float :=
  match r, block with
  | x :: r', y :: block' => (x + y)%float :: f64_add_block r' block'
  | _, _ => r
  end.

(** The running sums after every whole block of eight of [l], and what is
    left of [l]. *)
Fixpoint f64_blocks (fuel : nat) (r l : list float)
    : list float * list float :=
  match fuel with
  | O => (r, l)
  | S fuel' =>
      if 8 <=? List.length l
      then f64_blocks fuel' (f64_add_block r (firstn 8 l)) (skipn 8 l)
      else (r, l)
  end.

Definition f64_combine (r : list float) : float :=
  match r with
  | [r0; r1; r2; r3; r4; r5; r6; r7] =>
      (((r0 + r1) + (r2 + r3)) + ((r4 + r5) + (r6 + r7)))%float
  | _ => 0%float
  end.

(** numpy's pairwise sum: fewer than eight numbers are added one after the
    other, up to 128 in eight interleaved running sums, and more by halves
    cut at a multiple of eight. *)
Fixpoint f64_pairwise (fuel : nat) (l : list float) : float :=
  let n := List.length l in
  if n <? 8 then f64_add_all (-0)%float l
  else if n <=? 128 then
    let (r, rest) := f64_blocks n (firstn 8 l) (skipn 8 l) in
    f64_add_all (f64_combine r) rest
  else
    match fuel with
    | O => 0%float
    | S fuel' =>
        let n2 := (n / 2 - (n / 2) mod 8)%nat in
        (f64_pairwise fuel' (firstn n2 l)
         + f64_pairwise fuel' (skipn n2 l))%float
    end.

(** [Series.sum()] on float64: numpy's [add.reduce] from 0 over the filled
    cells. *)
Definition f64_series_sum (s : list (option float)) : float :=
  let l := f64_filled s in
  (0 + f64_pairwise (List.length l) l)%float.

(** The [groupby] sum on float64: Kahan's compensated summation of the
    cells that are present and not NaN. *)
Fixpoint f64_kahan (sumx compensation : float) (s : list (option float))
    : float :=
  match s with
  | [] => sumx
  | None :: s' => f64_kahan sumx compensation s'
  | Some val :: s' =>
      if PrimFloat.is_nan val then f64_kahan sumx compensation s'
      else
        let y := (val - compensation)%float in
        let t := (sumx + y)%float in
        let c := (t - sumx - y)%float in
        f64_kahan t (if PrimFloat.is_nan c then 0%float else c) s'
  end.

Definition Float64 : Numeric :=
  {| number := float;
     zero := 0%float;
     isnan := PrimFloat.is_nan;
     num_leb := PrimFloat.leb;
     truediv := fun x n => (x / f64_of_nat n)%float;
     series_sum := f64_series_sum;
     group_sum := f64_kahan 0%float 0%float |}.

(** The rational a float64 stands for; 0 for an infinity and for NaN. *)
Definition f64_value (x : float) : Q :=
  match FloatOps.Prim2SF x with
  | SpecFloat.S754_finite s m e =>
      inject_Z (if s then Z.neg m else Z.pos m) * 2 ^ e
  | _ => 0
  end.

End Libraries.

(* ------------------------------------------------------------------ *)
(** ** Sample data *)

Module Samples.
Import Pandas Dashboard Libraries.

Definition day0 : Date := 738000%Z.

Definition at_day (d : Date) : option Timestamp :=
  Some {| ts_date := d; ts_time_of_day := 0 |}.

(** A row with every identifier present and no coordinates. *)
Definition row (oid cid state seg : string) (revenue : Q) (day : Date)
    : @Row Rational :=
  @Build_Row Rational (Some oid) (Some cid) (Some state) (Some seg)
    (Some revenue) (at_day day) None None.

(** The three-row scenario of the specification, all on one day. *)
Definition scenario : @DataFrame Rational :=
  [ row "o1" "A" "SP" "Champions" 100 738000%Z;
    row "o2" "B" "SP" "Champions" 50 738000%Z;
    row "o3" "C" "RJ" "At Risk" 30 738000%Z ].

(** A paid order next to an unsegmented order of revenue 7. *)
Definition with_unsegmented_order : @DataFrame Rational :=
  [ row "o1" "A" "SP" "Champions" 100 738000%Z;
    @Build_Row Rational (Some "o2"%string) (Some "B"%string)
      (Some "SP"%string) None (Some 7) (at_day 738000%Z) None None ].

(** Two segments with one customer each; segment ["B"] appears first. *)
Definition tied_segments : @DataFrame Rational :=
  [ row "o1" "x" "SP" "B" 10 738000%Z;
    row "o2" "y" "SP" "A" 20 738000%Z ].

(** A segment whose rows name no customer, next to an ordinary one. *)
Definition anonymous_segment : @DataFrame Rational :=
  [ @Build_Row Rational (Some "o1"%string) None (Some "SP"%string)
      (Some "Lost"%string) (Some 40) (at_day 738000%Z) None None;
    row "o2" "A" "SP" "Loyal" 30 738000%Z;
    row "o3" "A" "RJ" "Loyal" 50 738000%Z ].

(** The scenario with a row that has no purchase timestamp, and two days
    later for its last row. *)
Definition with_undated_order : @DataFrame Rational :=
  [ row "o1" "A" "SP" "Champions" 100 738000%Z;
    @Build_Row Rational (Some "o2"%string) (Some "B"%string)
      (Some "SP"%string) (Some "Champions"%string) (Some 50) None None None;
    row "o3" "C" "RJ" "At Risk" 30 738002%Z ].

(** A row with both coordinates, and a dataset of 3001 of them. *)
Definition geo_row : @Row Rational :=
  @Build_Row Rational (Some "o1"%string) (Some "A"%string)
    (Some "SP"%string) (Some "Loyal"%string) (Some 10) (at_day 738000%Z)
    (Some (-23)) (Some (-46)).

Definition crowd : @DataFrame Rational := repeat geo_row 3001.

(** A stand-in for numpy's generator: one state, and the permutation that
    reverses. *)
Definition reversal (_ : unit) (n : nat) : list nat := rev (seq 0 n).

(** *** float64 rows *)

Definition frow (oid cid : string) (seg : option string) (revenue : float)
    : @Row Float64 :=
  @Build_Row Float64 (Some oid) (Some cid) (Some "SP"%string) seg
    (Some revenue) (at_day 738000%Z) None None.

(** Revenues 0.1, 0.4 and 0.1, as the nearest float64, in segments A, B
    and A. *)
Definition rounding_rows : @DataFrame Float64 :=
  [ frow "o1" "x" (Some "A"%string) 0x1.999999999999ap-4;
    frow "o2" "y" (Some "B"%string) 0x1.999999999999ap-2;
    frow "o3" "z" (Some "A"%string) 0x1.999999999999ap-4 ].

(** Two orders of one segment next to an unsegmented order, with revenues
    that add up without rounding. *)
Definition exact_rows : @DataFrame Float64 :=
  [ frow "o1" "x" (Some "Champions"%string) 100.5;
    frow "o2" "y" (Some "Champions"%string) 50;
    frow "o3" "z" None 7.25 ].

(** A segment whose rows name no customer, next to an ordinary one. *)
Definition anonymous_rows : @DataFrame Float64 :=
  [ @Build_Row Float64 (Some "o1"%string) None (Some "SP"%string)
      (Some "Lost"%string) (Some 40%float) (at_day 738000%Z) None None;
    frow "o2" "x" (Some "Loyal"%string) 30;
    frow "o3" "x" (Some "Loyal"%string) 50 ].



End Samples.

(* ------------------------------------------------------------------ *)
(** ** Two statements of the specification, as it words them *)

Module AsStated.
Import Pandas Dashboard Libraries.



End AsStated.

(* ------------------------------------------------------------------ *)
(** ** Facts about the pandas operations *)

Module PandasFacts.
Import Pandas.

(** *** Generic list facts *)

Lemma StronglySorted_weaken (A : Type) (R R' : A -> A -> Prop) (P : A -> Prop)
    (l : list A) :
  (forall a b, P a -> P b -> R a b -> R' a b) ->
  Forall P l -> StronglySorted R l -> StronglySorted R' l.
Proof.
  intros HRR' HP HS. induction HS as [|a l HS IH Ha]; constructor.
  - apply IH. now inversion HP.
  - inversion HP as [|? ? Pa Pl]; subst.
    rewrite Forall_forall in *. intros b Hb. apply HRR'; auto.
Qed.

Lemma StronglySorted_app (A : Type) (R : A -> A -> Prop) (l1 l2 : list A) :
  StronglySorted R l1 -> StronglySorted R l2 ->
  (forall a b, In a l1 -> In b l2 -> R a b) ->
  StronglySorted R (l1 ++ l2).
Proof.
  intros H1 H2 H12. induction H1 as [|a l H1 IH Ha]; simpl; auto.
  constructor.
  - apply IH. intros; apply H12; simpl; auto.
  - apply Forall_app; split; auto.
    apply Forall_forall. intros b Hb. apply H12; simpl; auto.
Qed.

Lemma StronglySorted_rev (A : Type) (R : A -> A -> Prop) (l : list A) :
  StronglySorted R l -> StronglySorted (fun a b => R b a) (rev l).
Proof.
  induction 1 as [|a l HS IH Ha]; simpl; [constructor|].
  apply StronglySorted_app; auto.
  - repeat constructor.
  - intros x y Hx [<-|[]]. rewrite Forall_forall in Ha.
    apply Ha. now apply in_rev.
Qed.

Lemma StronglySorted_map (A B : Type) (f : A -> B) (R : B -> B -> Prop)
    (l : list A) :
  StronglySorted (fun a b => R (f a) (f b)) l -> StronglySorted R (map f l).
Proof.
  induction 1 as [|a l HS IH Ha]; simpl; constructor; auto.
  rewrite Forall_forall in *. intros b Hb.
  apply in_map_iff in Hb as [x [<- Hx]]. auto.
Qed.

Lemma StronglySorted_NoDup (A : Type) (R : A -> A -> Prop) (l : list A) :
  (forall a, ~ R a a) -> StronglySorted R l -> NoDup l.
Proof.
  intros Hirr. induction 1 as [|a l HS IH Ha]; constructor; auto.
  intro Hin. rewrite Forall_forall in Ha. exact (Hirr a (Ha a Hin)).
Qed.

Lemma StronglySorted_unmap (A B : Type) (f : A -> B) (R : B -> B -> Prop)
    (l : list A) :
  StronglySorted R (map f l) -> StronglySorted (fun a b => R (f a) (f b)) l.
Proof.
  induction l as [|a l IH]; simpl; intros H; [constructor|].
  apply StronglySorted_inv in H as [HS Ha]. constructor; auto.
  rewrite Forall_forall in *. intros b Hb. apply Ha. now apply in_map.
Qed.

Lemma StronglySorted_filter (A : Type) (R : A -> A -> Prop) (f : A -> bool)
    (l : list A) :
  StronglySorted R l -> StronglySorted R (filter f l).
Proof.
  induction 1 as [|a l HS IH Ha]; simpl; [constructor|].
  destruct (f a); auto. constructor; auto.
  rewrite Forall_forall in *. intros b Hb.
  apply filter_In in Hb as [Hb _]. auto.
Qed.

(** *** The stable sort *)

Section SortFacts.
Variable A : Type.
Variable leb : A -> A -> bool.

Lemma insert_perm (x : A) (l : list A) :
  Permutation (insert leb x l) (x :: l).
Proof.
  induction l as [|y l IH]; simpl; auto.
  destruct (leb x y); auto.
  rewrite IH. apply perm_swap.
Qed.

Lemma stable_sort_perm (l : list A) : Permutation (stable_sort leb l) l.
Proof.
  induction l as [|x l IH]; simpl; auto.
  rewrite insert_perm. now constructor.
Qed.

Hypothesis leb_total : forall a b, leb a b = true \/ leb b a = true.
Hypothesis leb_trans :
  forall a b c, leb a b = true -> leb b c = true -> leb a c = true.

Variable before : A -> A -> Prop.

Lemma insert_stable (x : A) (s : list A) :
  Forall (before x) s -> StronglySorted (stable_le leb before) s ->
  StronglySorted (stable_le leb before) (insert leb x s).
Proof.
  intros Hx HS. induction HS as [|y s HS IH Hy]; simpl.
  - repeat constructor.
  - inversion Hx as [|? ? Hxy Hxs]; subst.
    destruct (leb x y) eqn:E.
    + constructor; [now constructor|].
      constructor; [split; auto|].
      rewrite Forall_forall in *. intros z Hz.
      split; [|auto]. destruct (Hy z Hz) as [Hyz _]. eauto.
    + constructor; [auto|].
      assert (Hyx : leb y x = true) by (destruct (leb_total x y); congruence).
      eapply Permutation_Forall; [symmetry; apply insert_perm|].
      constructor; auto. split; auto. congruence.
Qed.

Lemma stable_sort_stable (l : list A) :
  StronglySorted before l ->
  StronglySorted (stable_le leb before) (stable_sort leb l).
Proof.
  induction 1 as [|x l HS IH Hx]; simpl; [constructor|].
  apply insert_stable; auto.
  eapply Permutation_Forall; [symmetry; apply stable_sort_perm|]. auto.
Qed.
End SortFacts.

(** *** [sort_values] *)


(** Insertion sort is ascending as soon as the comparison is a total
    preorder on the elements at hand. *)
Section SortedOn.
Variable A : Type.
Variable leb : A -> A -> bool.
Variable P : A -> Prop.
Hypothesis leb_total_on :
  forall a b, P a -> P b -> leb a b = true \/ leb b a = true.
Hypothesis leb_trans_on :
  forall a b c, P a -> P b -> P c ->
                leb a b = true -> leb b c = true -> leb a c = true.

Lemma insert_sorted_on (x : A) (s : list A) :
  P x -> Forall P s ->
  StronglySorted (fun a b => leb a b = true) s ->
  StronglySorted (fun a b => leb a b = true) (insert leb x s).
Proof.
  intros Px Ps HS. induction HS as [|y s HS IH Hy]; simpl.
  - repeat constructor.
  - inversion Ps as [|? ? Py Ps']; subst.
    destruct (leb x y) eqn:E.
    + constructor; [now constructor|].
      constructor; [exact E|].
      rewrite Forall_forall in *. intros z Hz. eauto.
    + constructor; [auto|].
      assert (Hyx : leb y x = true)
        by (destruct (leb_total_on Px Py); congruence).
      eapply Permutation_Forall; [symmetry; apply insert_perm|].
      constructor; auto.
Qed.

Lemma stable_sort_sorted_on (l : list A) :
  Forall P l ->
  StronglySorted (fun a b => leb a b = true) (stable_sort leb l).
Proof.
  induction 1 as [|x l Px Pl IH]; simpl; [constructor|].
  apply insert_sorted_on; auto.
  eapply Permutation_Forall; [symmetry; apply stable_sort_perm|]. auto.
Qed.
End SortedOn.

(** *** [sort_values] *)

Section SortValuesFacts.
Context {S : Sorter} {SS : SorterSpec S}.
Variables R V : Type.
Variable col : R -> option V.
Variable leb : V -> V -> bool.

Lemma non_nans_snd (df : list R) :
  map snd (non_nans col df) = filter (fun r => notna (col r)) df.
Proof.
  induction df as [|r df IH]; simpl; auto.
  unfold notna, isna in *. destruct (col r); simpl; congruence.
Qed.

Lemma non_nans_col (df : list R) :
  Forall (fun p => col (snd p) = Some (fst p)) (non_nans col df).
Proof.
  induction df as [|r df IH]; simpl; auto.
  destruct (col r) eqn:E; auto.
Qed.

Lemma sort_values_split (ascending : bool) (df : list R) :
  sort_values col leb ascending df
  = sorted_rows col leb ascending df ++ filter (fun r => isna (col r)) df.
Proof. reflexivity. Qed.

Lemma sorted_rows_perm (ascending : bool) (df : list R) :
  Permutation (sorted_rows col leb ascending df)
              (filter (fun r => notna (col r)) df).
Proof.
  unfold sorted_rows. rewrite <- non_nans_snd. apply Permutation_map.
  destruct ascending.
  - apply quicksort_perm.
  - rewrite <- Permutation_rev, quicksort_perm. symmetry.
    apply Permutation_rev.
Qed.

Lemma filter_partition_perm (f : R -> bool) (df : list R) :
  Permutation (filter f df ++ filter (fun r => negb (f r)) df) df.
Proof.
  induction df as [|r df IH]; simpl; auto.
  destruct (f r); simpl.
  - now constructor.
  - rewrite <- Permutation_middle. now constructor.
Qed.

Lemma sort_values_perm (ascending : bool) (df : list R) :
  Permutation (sort_values col leb ascending df) df.
Proof.
  rewrite sort_values_split, sorted_rows_perm.
  replace (filter (fun r => isna (col r)) df)
    with (filter (fun r => negb (notna (col r))) df).
  - apply filter_partition_perm.
  - apply filter_ext. intros r. unfold notna. apply negb_involutive.
Qed.

Lemma sort_values_In (ascending : bool) (df : list R) (r : R) :
  In r (sort_values col leb ascending df) <-> In r df.
Proof.
  split; apply Permutation_in;
    [|symmetry]; apply sort_values_perm.
Qed.

Lemma sort_values_nil (ascending : bool) :
  sort_values col leb ascending [] = [].
Proof.
  apply Permutation_nil. symmetry. apply sort_values_perm.
Qed.

Lemma sort_values_singleton (ascending : bool) (x : R) :
  sort_values col leb ascending [x] = [x].
Proof.
  apply Permutation_length_1_inv. symmetry. apply sort_values_perm.
Qed.

(** A table of two rows comes out in one of its two orders. *)
Lemma sort_values_two (ascending : bool) (x y : R) :
  sort_values col leb ascending [x; y] = [x; y]
  \/ sort_values col leb ascending [x; y] = [y; x].
Proof.
  apply Permutation_length_2_inv. symmetry. apply sort_values_perm.
Qed.

(** The rows whose cell is present come by descending cell, as long as the
    comparison is a total preorder on the cells [ok] that occur. *)
Variable ok : V -> Prop.
Hypothesis leb_total_on :
  forall a b, ok a -> ok b -> leb a b = true \/ leb b a = true.
Hypothesis leb_trans_on :
  forall a b c, ok a -> ok b -> ok c ->
                leb a b = true -> leb b c = true -> leb a c = true.

Lemma sorted_rows_desc (df : list R) :
  (forall r v, In r df -> col r = Some v -> ok v) ->
  StronglySorted
    (fun a b => exists va vb,
                  col a = Some va /\ col b = Some vb /\ leb vb va = true)
    (sorted_rows col leb false df).
Proof.
  intros Hok. unfold sorted_rows.
  set (cmp := fun a b : V * R => leb (fst a) (fst b)).
  assert (Hcol : forall p, In p (non_nans col df) ->
                           col (snd p) = Some (fst p) /\ ok (fst p)).
  { intros p Hp.
    assert (Hc : col (snd p) = Some (fst p)).
    { pose proof (non_nans_col df) as H. rewrite Forall_forall in H. auto. }
    split; auto. apply (Hok (snd p)); auto.
    assert (Hin : In (snd p) (map snd (non_nans col df))) by now apply in_map.
    rewrite non_nans_snd in Hin. now apply filter_In in Hin. }
  assert (Hs : StronglySorted (fun a b => cmp a b = true)
                 (quicksort cmp (rev (non_nans col df)))).
  { apply quicksort_sorted; unfold cmp.
    - intros a b Ha Hb. apply in_rev in Ha, Hb.
      apply leb_total_on; now apply Hcol.
    - intros a b c Ha Hb Hc. apply in_rev in Ha, Hb, Hc.
      apply leb_trans_on; now apply Hcol. }
  apply StronglySorted_rev in Hs.
  apply StronglySorted_map.
  eapply StronglySorted_weaken; [| |exact Hs].
  - intros p q Hp Hq Hle. exists (fst p), (fst q).
    repeat split; [exact Hp|exact Hq|exact Hle].
  - apply Forall_forall. intros p Hp. apply in_rev in Hp.
    eapply Permutation_in in Hp; [|apply quicksort_perm].
    apply in_rev in Hp. now apply Hcol.
Qed.
End SortValuesFacts.


(** *** The order on strings *)

Lemma string_leb_trans (a b c : string) :
  String.leb a b = true -> String.leb b c = true -> String.leb a c = true.
Proof.
  revert b c. unfold String.leb.
  induction a as [|x a IH]; intros [|y b] [|z c]; simpl; try congruence.
  unfold Ascii.compare.
  destruct (N.compare_spec (N_of_ascii x) (N_of_ascii y)) as [Hxy|Hxy|Hxy];
    destruct (N.compare_spec (N_of_ascii y) (N_of_ascii z)) as [Hyz|Hyz|Hyz];
    destruct (N.compare_spec (N_of_ascii x) (N_of_ascii z)) as [Hxz|Hxz|Hxz];
    try congruence; try lia.
  apply IH.
Qed.

Lemma string_leb_ltb (a b : string) :
  String.leb a b = true -> a <> b -> String.ltb a b = true.
Proof.
  unfold String.leb, String.ltb. intros Hle Hne.
  destruct (String.compare a b) eqn:E; try congruence.
  now apply String.compare_eq_iff in E.
Qed.

Lemma string_ltb_irrefl (a : string) : String.ltb a a <> true.
Proof.
  unfold String.ltb. intros H.
  pose proof (String.compare_antisym a a) as Ha.
  destruct (String.compare a a); simpl in Ha; congruence.
Qed.

(** *** [unique] and [nunique] *)

Lemma unique_In (x : string) (s : list string) :
  In x (unique s) <-> In x s.
Proof.
  induction s as [|a s IH]; simpl; [tauto|].
  rewrite filter_In, IH, negb_true_iff, String.eqb_neq.
  destruct (string_dec a x); tauto.
Qed.

Lemma unique_NoDup (s : list string) : NoDup (unique s).
Proof.
  induction s as [|a s IH]; simpl; constructor.
  - rewrite filter_In, negb_true_iff, String.eqb_neq. tauto.
  - now apply NoDup_filter.
Qed.

Lemma dropna_In (V : Type) (v : V) (s : list (option V)) :
  In v (dropna s) <-> In (Some v) s.
Proof.
  induction s as [|[w|] s IH]; simpl; [tauto| |].
  - rewrite IH. split; intros [H|H]; auto; left; congruence.
  - rewrite IH. split; [auto|]. intros [H|H]; [discriminate|auto].
Qed.

(** *** [groupby] *)

Section GroupbyFacts.
Variable R : Type.
Variable by_ : R -> option string.

Lemma groupby_keys (df : list R) :
  map fst (groupby by_ df)
  = stable_sort String.leb (unique (dropna (map by_ df))).
Proof.
  unfold groupby. rewrite map_map. simpl. apply map_id.
Qed.

Lemma groupby_key_In (df : list R) (k : string) :
  In k (map fst (groupby by_ df)) <-> exists r, In r df /\ by_ r = Some k.
Proof.
  rewrite groupby_keys.
  assert (Hp := stable_sort_perm String.leb (unique (dropna (map by_ df)))).
  split.
  - intros H. apply (Permutation_in _ Hp) in H.
    apply unique_In, dropna_In, in_map_iff in H as [r [Hr Hin]]. eauto.
  - intros [r [Hin Hr]]. apply (Permutation_in _ (Permutation_sym Hp)).
    apply unique_In, dropna_In, in_map_iff. eauto.
Qed.

Lemma groupby_keys_NoDup (df : list R) : NoDup (map fst (groupby by_ df)).
Proof.
  rewrite groupby_keys.
  eapply Permutation_NoDup; [symmetry; apply stable_sort_perm|].
  apply unique_NoDup.
Qed.

(** The groups come in strictly ascending key order. *)
Lemma groupby_keys_sorted (df : list R) :
  StronglySorted (fun a b => String.ltb a b = true) (map fst (groupby by_ df)).
Proof.
  pose proof (groupby_keys_NoDup df) as Hnd.
  rewrite groupby_keys in *.
  set (ks := stable_sort String.leb (unique (dropna (map by_ df)))) in *.
  assert (Hs : StronglySorted (stable_le String.leb (fun _ _ => True)) ks).
  { apply stable_sort_stable.
    - apply String.leb_total.
    - apply string_leb_trans.
    - clear. induction (unique (dropna (map by_ df))); constructor; auto.
      now apply Forall_forall. }
  clear -Hnd Hs. induction Hs as [|a l Hs IH Ha]; constructor.
  - apply IH. now inversion Hnd.
  - inversion Hnd as [|? ? Hni _]; subst.
    rewrite Forall_forall in *. intros b Hb.
    apply string_leb_ltb; [apply (Ha b Hb)|]. congruence.
Qed.

Lemma groupby_In (df : list R) (g : string * list R) :
  In g (groupby by_ df) ->
  snd g = filter (fun r => eq_scalar (by_ r) (fst g)) df.
Proof.
  unfold groupby. intros H. apply in_map_iff in H as [k [<- _]]. reflexivity.
Qed.

Lemma groupby_nil : groupby by_ [] = [].
Proof. reflexivity. Qed.
End GroupbyFacts.

(** *** Exact sums *)

Lemma qsum_app (s1 s2 : list (option Q)) : qsum (s1 ++ s2) == qsum s1 + qsum s2.
Proof.
  induction s1 as [|[q|] s1 IH]; simpl.
  - now rewrite Qplus_0_l.
  - now rewrite IH, Qplus_assoc.
  - exact IH.
Qed.




(** The sums of the groups of a [groupby] add up to the sum over the rows
    whose key is present. *)
Section GroupSums.
Variable R : Type.
Variable by_ : R -> option string.
Variable cell : R -> option Q.




End GroupSums.

(** *** Sorting a column without missing cells *)

Lemma sort_values_total (S : Sorter) (R V : Type) (col : R -> option V)
    (leb : V -> V -> bool) (ascending : bool) (df : list R) :
  (forall r, col r <> None) ->
  sort_values col leb ascending df = sorted_rows col leb ascending df.
Proof.
  intros Hcol. rewrite sort_values_split.
  replace (filter (fun r => isna (col r)) df) with (@nil R);
    [apply app_nil_r|].
  induction df as [|r df IH]; simpl; auto.
  destruct (col r) eqn:E; simpl; auto. now apply Hcol in E.
Qed.

Lemma StronglySorted_trivial (A : Type) (l : list A) :
  StronglySorted (fun _ _ => True) l.
Proof.
  induction l; constructor; auto. now apply Forall_forall.
Qed.


Lemma firstn_In (A : Type) (n : nat) (l : list A) (x : A) :
  In x (firstn n l) -> In x l.
Proof.
  intros H. rewrite <- (firstn_skipn n l). apply in_or_app. now left.
Qed.


Lemma Qle_bool_total (a b : Q) : Qle_bool a b = true \/ Qle_bool b a = true.
Proof.
  rewrite !Qle_bool_iff. destruct (Qlt_le_dec a b); auto using Qlt_le_weak.
Qed.

Lemma Qle_bool_trans (a b c : Q) :
  Qle_bool a b = true -> Qle_bool b c = true -> Qle_bool a c = true.
Proof. rewrite !Qle_bool_iff. apply Qle_trans. Qed.

Lemma nat_leb_total (a b : nat) : (a <=? b)%nat = true \/ (b <=? a)%nat = true.
Proof. rewrite !Nat.leb_le. lia. Qed.

Lemma nat_leb_trans (a b c : nat) :
  (a <=? b)%nat = true -> (b <=? c)%nat = true -> (a <=? c)%nat = true.
Proof. rewrite !Nat.leb_le. lia. Qed.

(** *** Sorted lists of strings *)

Lemma string_sorted (l : list string) :
  StronglySorted (fun a b => String.leb a b = true) (stable_sort String.leb l).
Proof.
  apply stable_sort_sorted_on with (P := fun _ => True).
  - intros a b _ _. apply String.leb_total.
  - intros a b c _ _ _. apply string_leb_trans.
  - apply Forall_forall. auto.
Qed.

(** Two sorted lists of strings with the same elements are the same. *)
Lemma sorted_perm_eq (l1 l2 : list string) :
  StronglySorted (fun a b => String.leb a b = true) l1 ->
  StronglySorted (fun a b => String.leb a b = true) l2 ->
  Permutation l1 l2 -> l1 = l2.
Proof.
  intros H1. revert l2. induction H1 as [|a t1 Ht1 IH Ha]; intros l2 H2 Hp.
  - now apply Permutation_nil in Hp.
  - destruct H2 as [|b t2 Ht2 Hb].
    + apply Permutation_sym, Permutation_nil in Hp. discriminate.
    + assert (E : a = b).
      { rewrite Forall_forall in Ha, Hb.
        assert (Hab : In a (b :: t2))
          by (apply (Permutation_in _ Hp); now left).
        assert (Hba : In b (a :: t1))
          by (apply (Permutation_in _ (Permutation_sym Hp)); now left).
        destruct Hab as [->|Hab]; auto. destruct Hba as [->|Hba]; auto.
        apply String.leb_antisym; auto. }
      subst b. f_equal. apply IH; auto.
      now apply Permutation_cons_inv in Hp.
Qed.

Lemma stable_sort_perm_eq (l1 l2 : list string) :
  Permutation l1 l2 ->
  stable_sort String.leb l1 = stable_sort String.leb l2.
Proof.
  intros Hp. apply sorted_perm_eq; try apply string_sorted.
  rewrite !stable_sort_perm. exact Hp.
Qed.

Lemma filter_perm (A : Type) (f : A -> bool) (l1 l2 : list A) :
  Permutation l1 l2 -> Permutation (filter f l1) (filter f l2).
Proof.
  induction 1 as [|x l l' _ IH|x y l|l l' l'' _ IH1 _ IH2]; simpl; auto.
  - destruct (f x); auto.
  - destruct (f x), (f y); auto. apply perm_swap.
  - now rewrite IH1.
Qed.

(** *** Reordering the rows *)

Lemma dropna_perm (V : Type) (s1 s2 : list (option V)) :
  Permutation s1 s2 -> Permutation (dropna s1) (dropna s2).
Proof.
  induction 1 as [|x l l' _ IH|x y l|l l' l'' _ IH1 _ IH2]; simpl; auto.
  - destruct x; auto.
  - destruct x, y; auto. apply perm_swap.
  - now rewrite IH1.
Qed.

Lemma unique_perm (s1 s2 : list string) :
  Permutation s1 s2 -> Permutation (unique s1) (unique s2).
Proof.
  intros Hp. apply NoDup_Permutation; try apply unique_NoDup.
  intros x. rewrite !unique_In. split; apply Permutation_in; auto.
  now symmetry.
Qed.

Lemma nunique_perm (s1 s2 : list (option string)) :
  Permutation s1 s2 -> nunique s1 = nunique s2.
Proof.
  intros Hp. unfold nunique. apply Permutation_length.
  now apply unique_perm, dropna_perm.
Qed.

Lemma groupby_keys_perm (R : Type) (by_ : R -> option string)
    (d d' : list R) :
  Permutation d d' -> map fst (groupby by_ d') = map fst (groupby by_ d).
Proof.
  intros Hp. rewrite !groupby_keys. apply stable_sort_perm_eq.
  apply unique_perm, dropna_perm, Permutation_map. now symmetry.
Qed.

(** A table whose rows depend on their group only up to the order of its
    rows is the same for every order of the rows of the dataset. *)
Lemma grouped_table_perm (R T : Type) (by_ : R -> option string)
    (mk : string * list R -> T) (d d' : list R) :
  (forall k l l', Permutation l l' -> mk (k, l) = mk (k, l')) ->
  Permutation d d' ->
  map mk (groupby by_ d') = map mk (groupby by_ d).
Proof.
  intros Hmk Hp. pose proof (groupby_keys_perm by_ Hp) as Hk.
  rewrite !groupby_keys in Hk. unfold groupby. rewrite Hk, !map_map.
  apply map_ext. intros k. apply Hmk. apply filter_perm. now symmetry.
Qed.

(** *** The libraries meet what is asked of them *)

Lemma Rational_spec : NumericSpec Libraries.Rational.
Proof.
  constructor; simpl.
  - reflexivity.
  - intros a b _ _. apply Qle_bool_total.
  - intros a b c _ _ _. apply Qle_bool_trans.
Qed.

Lemma Insertion_spec : SorterSpec Libraries.Insertion.
Proof.
  constructor; simpl.
  - intros A leb l. apply stable_sort_perm.
  - intros A leb l Htot Htrans.
    apply stable_sort_sorted_on with (P := fun a => In a l); auto.
    apply Forall_forall. auto.
Qed.

(** float64's [<=] is a total preorder on the numbers that are not NaN. *)
Lemma SFleb_total (x y : SpecFloat.spec_float) :
  x <> SpecFloat.S754_nan -> y <> SpecFloat.S754_nan ->
  SpecFloat.SFleb x y = true \/ SpecFloat.SFleb y x = true.
Proof.
  intros Hx Hy. unfold SpecFloat.SFleb, SpecFloat.SFcompare.
  change (PosDef.Pos.compare_cont Eq) with Pos.compare.
  destruct x as [sx|sx| |sx mx ex], y as [sy|sy| |sy my ey];
    try congruence;
    try destruct sx; try destruct sy; auto;
    destruct (Z.compare_spec ex ey), (Z.compare_spec ey ex); try lia; auto;
    destruct (Pos.compare_spec mx my), (Pos.compare_spec my mx);
    simpl; try lia; auto.
Qed.

Lemma SFleb_trans (x y z : SpecFloat.spec_float) :
  SpecFloat.SFleb x y = true -> SpecFloat.SFleb y z = true ->
  SpecFloat.SFleb x z = true.
Proof.
  unfold SpecFloat.SFleb, SpecFloat.SFcompare.
  change (PosDef.Pos.compare_cont Eq) with Pos.compare.
  destruct x as [sx|sx| |sx mx ex], y as [sy|sy| |sy my ey],
           z as [sz|sz| |sz mz ez];
    try discriminate;
    try destruct sx; try destruct sy; try destruct sz;
    try discriminate; try reflexivity;
    destruct (Z.compare_spec ex ey), (Z.compare_spec ey ez),
             (Z.compare_spec ex ez);
    try discriminate; try reflexivity; try lia;
    destruct (Pos.compare_spec mx my), (Pos.compare_spec my mz),
             (Pos.compare_spec mx mz);
    simpl; try discriminate; try reflexivity; try lia.
Qed.

Lemma is_nan_Prim2SF (x : float) :
  PrimFloat.is_nan x = false -> FloatOps.Prim2SF x <> SpecFloat.S754_nan.
Proof.
  unfold PrimFloat.is_nan. rewrite FloatAxioms.eqb_spec. intros H E.
  rewrite E in H. discriminate.
Qed.

Lemma Float64_spec : NumericSpec Libraries.Float64.
Proof.
  constructor; simpl.
  - reflexivity.
  - intros a b Ha Hb. rewrite !FloatAxioms.leb_spec.
    apply SFleb_total; now apply is_nan_Prim2SF.
  - intros a b c _ _ _. rewrite !FloatAxioms.leb_spec. apply SFleb_trans.
Qed.

(** Every sum of the library that never rounds is exact. *)
Lemma Rational_exact (f : list (option Q) -> Q) (s : list (option Q)) :
  f = qsum -> @exact_sum Libraries.Rational (fun q => q) f s.
Proof.
  intros ->. split; [reflexivity|]. unfold values. cbn.
  induction s as [|[q|] s IH]; cbn; [reflexivity| |exact IH].
  now rewrite IH.
Qed.

End PandasFacts.

(* ------------------------------------------------------------------ *)
(** ** The filter engine *)

Module FilterFacts.
Import Pandas PandasFacts Dashboard Libraries.

Section Filter.
Context {N : Numeric}.

Lemma boolean_index_map (R : Type) (f : R -> bool) (df : list R) :
  boolean_index df (map f df) = filter f df.
Proof.
  unfold boolean_index. induction df as [|r df IH]; simpl; auto.
  destruct (f r); simpl; congruence.
Qed.

Lemma mask_and_map (R : Type) (f g : R -> bool) (df : list R) :
  mask_and (map f df) (map g df) = map (fun r => f r && g r) df.
Proof.
  unfold mask_and. induction df as [|r df IH]; simpl; congruence.
Qed.

Lemma filter_filter (R : Type) (f g : R -> bool) (df : list R) :
  filter g (filter f df) = filter (fun r => f r && g r) df.
Proof.
  induction df as [|r df IH]; simpl; auto.
  destruct (f r); simpl; [destruct (g r)|]; congruence.
Qed.

Lemma eq_scalar_true (c : option string) (v : string) :
  eq_scalar c v = true <-> c = Some v.
Proof.
  destruct c as [x|]; simpl; [|split; discriminate].
  rewrite String.eqb_eq. split; congruence.
Qed.

Lemma keepsb_keeps (start_date end_date : Date) (state seg : string) (r : Row) :
  keepsb start_date end_date state seg r = true
  <-> keeps start_date end_date state seg r.
Proof.
  unfold keepsb, keeps.
  rewrite !andb_true_iff, !orb_true_iff, !String.eqb_eq, !eq_scalar_true.
  destruct (order_purchase_timestamp r) as [t|].
  - rewrite andb_true_iff, !Z.leb_le. split.
    + intros [[Hd Hs] Hg]. repeat split; auto. exists t. auto.
    + intros [[t' [E Hd]] [Hs Hg]]. inversion E; subst. tauto.
  - split; [intros [[H _] _]; discriminate|].
    intros [[t [E _]] _]. discriminate.
Qed.

Lemma df_f_filter (df : DataFrame) (start_date end_date : Date)
    (state seg : string) :
  df_f df start_date end_date state seg
  = filter (keepsb start_date end_date state seg) df.
Proof.
  unfold df_f. rewrite !map_map, mask_and_map, boolean_index_map.
  rewrite !boolean_index_map.
  assert (Hstep : forall (c : bool) (g : Row -> bool) (l : DataFrame),
             (if negb c then filter g l else l)
             = filter (fun r => c || g r) l).
  { intros [|] g l; simpl; auto. clear.
    induction l as [|r l IH]; simpl; congruence. }
  rewrite !Hstep, !filter_filter. apply filter_ext. intros r.
  unfold keepsb, dt_date, date_ge, date_le.
  destruct (order_purchase_timestamp r); simpl;
    rewrite ?andb_assoc; reflexivity.
Qed.

(** C1. The filtered dataset holds exactly the rows of the dataset, in
    their order, whose purchase date lies between [start_date] and
    [end_date] inclusive, whose state is the selected one unless the state
    filter is the ["(All)"] sentinel, and whose segment is the selected one
    unless the segment filter is the sentinel; a row without a purchase
    timestamp is never kept. *)
Theorem filter_keeps_exactly (df : DataFrame) (start_date end_date : Date)
    (state seg : string) :
  df_f df start_date end_date state seg
  = filter (keepsb start_date end_date state seg) df
  /\ (forall r, In r (df_f df start_date end_date state seg)
                <-> In r df /\ keeps start_date end_date state seg r)
  /\ (forall r, order_purchase_timestamp r = None ->
                ~ In r (df_f df start_date end_date state seg)).
Proof.
  rewrite df_f_filter. split; [reflexivity|]. split.
  - intros r. now rewrite filter_In, keepsb_keeps.
  - intros r Hnull Hin. apply filter_In in Hin as [_ Hk].
    unfold keepsb in Hk. now rewrite Hnull in Hk.
Qed.

End Filter.

Example filter_scenario_by_state :
  df_f Samples.scenario 738000%Z 738000%Z "RJ" All
  = [ Samples.row "o3" "C" "RJ" "At Risk" 30 738000%Z ]
  /\ df_f Samples.scenario 737000%Z 737999%Z All All = []
  /\ df_f Samples.with_unsegmented_order 738000%Z 738000%Z All "Champions"
     = [ Samples.row "o1" "A" "SP" "Champions" 100 738000%Z ].
Proof. repeat split. Qed.

End FilterFacts.


(* ------------------------------------------------------------------ *)
(** ** The KPIs *)

Module KpiFacts.
Import Pandas PandasFacts Dashboard FilterFacts Libraries.

(** [nunique] counts the distinct values that are present. *)
Lemma nunique_spec (s : list (option string)) :
  exists ids, NoDup ids /\ (forall i, In i ids <-> In (Some i) s)
              /\ nunique s = List.length ids.
Proof.
  exists (unique (dropna s)). split; [apply unique_NoDup|]. split; auto.
  intros i. now rewrite unique_In, dropna_In.
Qed.

Section Kpi.
Context {N : Numeric} {S : Sorter}.
Context {NS : NumericSpec N} {SS : SorterSpec S}.

Lemma df_f_inverted (df : DataFrame) (start_date end_date : Date)
    (state seg : string) :
  (end_date < start_date)%Z -> df_f df start_date end_date state seg = [].
Proof.
  intros Hlt. rewrite df_f_filter.
  induction df as [|r df IH]; simpl; auto.
  replace (keepsb start_date end_date state seg r) with false; auto.
  unfold keepsb. destruct (order_purchase_timestamp r) as [t|]; auto.
  destruct (Z.leb_spec start_date (ts_date t));
    destruct (Z.leb_spec (ts_date t) end_date); simpl; auto; lia.
Qed.

(** C3. When [start_date] is later than [end_date] the filter returns the
    empty dataset, each of the four aggregations of that dataset is the
    empty table, and the four KPIs are 0. *)
Theorem inverted_range_is_empty (df : DataFrame) (start_date end_date : Date)
    (state seg : string) :
  (end_date < start_date)%Z ->
  let d := df_f df start_date end_date state seg in
  d = []
  /\ create_rfm_segment_df d = []
  /\ create_rfm_revenue_df d = []
  /\ create_avg_rev_per_customer_df d = []
  /\ create_state_perf_df d = []
  /\ total_revenue d = zero
  /\ total_orders d = 0%nat
  /\ total_customers d = 0%nat
  /\ aov d = zero.
Proof.
  intros Hlt d. subst d. rewrite (df_f_inverted df state seg Hlt).
  unfold create_rfm_segment_df, create_rfm_revenue_df,
    create_avg_rev_per_customer_df, create_state_perf_df.
  cbn [groupby map dropna unique stable_sort].
  rewrite !sort_values_nil.
  repeat split; try reflexivity.
  apply series_sum_nil.
Qed.

(** C5. The average order value is [total_revenue / total_orders] when
    there is at least one order and exactly 0 when there is none, where
    [total_revenue] sums [order_revenue] over the filtered dataset and
    [total_orders] counts its distinct [order_id] values. *)
Theorem aov_spec (d : DataFrame) :
  ((0 < total_orders d)%nat ->
     aov d = truediv (total_revenue d) (total_orders d))
  /\ (total_orders d = 0%nat -> aov d = zero)
  /\ total_revenue d = series_sum (map order_revenue d)
  /\ (exists ids, NoDup ids
        /\ (forall i, In i ids <-> exists r, In r d /\ order_id r = Some i)
        /\ total_orders d = List.length ids).
Proof.
  unfold aov. repeat split.
  - intros Hpos. destruct (Nat.eqb_spec (total_orders d) 0); [lia|reflexivity].
  - intros ->. reflexivity.
  - destruct (nunique_spec (map order_id d)) as [ids [Hnd [Hin Hlen]]].
    exists ids. repeat split; auto.
    + intros Hi. apply Hin, in_map_iff in Hi as [r [E Hr]]. eauto.
    + intros [r [Hr E]]. apply Hin, in_map_iff. eauto.
Qed.
End Kpi.

Lemma inverted_range_is_empty_witness :
  let d := df_f Samples.exact_rows 738001%Z 738000%Z All All in
  d = []
  /\ create_rfm_segment_df (S := Insertion) d = []
  /\ create_rfm_revenue_df (S := Insertion) d = []
  /\ create_avg_rev_per_customer_df (S := Insertion) d = []
  /\ create_state_perf_df (S := Insertion) d = []
  /\ total_revenue d = 0%float
  /\ total_orders d = 0%nat
  /\ total_customers d = 0%nat
  /\ aov d = 0%float.
Proof.
  apply (@inverted_range_is_empty Float64 Insertion Float64_spec
           Insertion_spec Samples.exact_rows 738001%Z 738000%Z All All).
  reflexivity.
Defined.

Example aov_scenario : aov Samples.scenario == 60.
Proof. reflexivity. Qed.

(** Rows whose [order_id] is missing count for no order: the value is the
    number 0 although there is revenue. *)
Example aov_no_order :
  aov [ @Build_Row Rational None (Some "A"%string) None None (Some 25)
          None None None ]
  = 0.
Proof. reflexivity. Qed.

(** On float64 the quotient is the rounded one: 0.6 over three orders is
    0.19999999999999998. *)
Example aov_float64 :
  aov Samples.rounding_rows = 0x1.9999999999999p-3%float.
Proof. reflexivity. Qed.

End KpiFacts.

(* ------------------------------------------------------------------ *)
(** ** Input-file discovery *)

Module DiscoveryFacts.
Import Pandas PandasFacts Dashboard.
Local Open Scope string_scope.

Lemma stable_sort_head_least (l : list string) (x : string) (rest : list string) :
  stable_sort String.leb l = x :: rest ->
  forall y, In y l -> String.leb x y = true.
Proof.
  intros E y Hy.
  assert (Hs : StronglySorted (stable_le String.leb (fun _ _ => True))
                 (stable_sort String.leb l)).
  { apply stable_sort_stable.
    - apply String.leb_total.
    - apply string_leb_trans.
    - clear. induction l; constructor; auto. now apply Forall_forall. }
  apply (Permutation_in _ (Permutation_sym (stable_sort_perm String.leb l))) in Hy.
  rewrite E in Hs, Hy. apply StronglySorted_inv in Hs as [_ Hx].
  destruct Hy as [<-|Hy].
  - now destruct (String.leb_total x x).
  - rewrite Forall_forall in Hx. apply (Hx y Hy).
Qed.

(** [is_csv] holds of the names that end in [.csv], the names the pattern
    ["*.csv"] matches. *)
Lemma substring_suffix (stem ext : string) :
  substring (String.length stem) (String.length ext) (stem ++ ext) = ext.
Proof.
  induction stem as [|c stem IH]; simpl; auto.
  induction ext as [|c ext IH]; simpl; congruence.
Qed.

Lemma substring_split (s : string) (k : nat) :
  (k <= String.length s)%nat ->
  s = substring 0 k s ++ substring k (String.length s - k) s.
Proof.
  revert k. induction s as [|c s IH]; intros [|k] Hk; simpl in *; auto.
  - f_equal. clear. induction s as [|c s IH]; simpl; congruence.
  - f_equal. apply IH. lia.
Qed.

Lemma length_append (s1 s2 : string) :
  String.length (s1 ++ s2) = (String.length s1 + String.length s2)%nat.
Proof. induction s1; simpl; auto. Qed.

Lemma is_csv_iff (name : string) :
  is_csv name = true <-> exists stem, name = stem ++ ".csv".
Proof.
  unfold is_csv. rewrite andb_true_iff, Nat.leb_le, String.eqb_eq. split.
  - intros [Hlen E].
    exists (substring 0 (String.length name - 4) name).
    assert (Hk : (String.length name - 4 <= String.length name)%nat) by lia.
    pose proof (substring_split name Hk) as Hs.
    replace (String.length name - (String.length name - 4))%nat
      with 4%nat in Hs by lia.
    now rewrite E in Hs.
  - intros [stem ->]. rewrite length_append. simpl String.length. split; [lia|].
    replace (String.length stem + 4 - 4)%nat with (String.length stem) by lia.
    apply (substring_suffix stem ".csv").
Qed.

Lemma main_data_found (dir : list string) :
  existsb (String.eqb main_data) dir = true <-> In main_data dir.
Proof.
  rewrite existsb_exists. split.
  - intros [x [Hx E]]. apply String.eqb_eq in E. congruence.
  - intros H. exists main_data. split; [exact H|apply String.eqb_refl].
Qed.

(** C9. If the fixed file name is in the directory it is used; otherwise,
    if the directory holds a [.csv] file, the least of them in the order of
    strings is used; otherwise an error is reported and the script stops. *)
Theorem discover_cases (dir : list string) :
  (In main_data dir -> discover dir = Loaded main_data)
  /\ (~ In main_data dir ->
      (exists f, In f dir /\ is_csv f = true) ->
      exists first, discover dir = Loaded first
        /\ In first dir /\ is_csv first = true
        /\ forall f, In f dir -> is_csv f = true -> String.leb first f = true)
  /\ (~ In main_data dir ->
      (forall f, In f dir -> is_csv f = false) ->
      exists error, discover dir = Halted error).
Proof.
  unfold discover. repeat split.
  - intros H. apply main_data_found in H. now rewrite H.
  - intros Hno [f [Hf Hcsv]].
    destruct (existsb (String.eqb main_data) dir) eqn:E;
      [apply main_data_found in E; contradiction|].
    destruct (stable_sort String.leb (filter is_csv dir)) as [|x rest] eqn:Es.
    + assert (Hin : In f (stable_sort String.leb (filter is_csv dir))).
      { apply (Permutation_in _ (Permutation_sym (stable_sort_perm _ _))).
        apply filter_In. auto. }
      rewrite Es in Hin. destruct Hin.
    + exists x. split; auto.
      assert (Hx : In x (filter is_csv dir)).
      { apply (Permutation_in _ (stable_sort_perm String.leb _)).
        rewrite Es. now left. }
      apply filter_In in Hx as [Hx1 Hx2]. repeat split; auto.
      intros g Hg Hgc. eapply stable_sort_head_least; eauto.
      apply filter_In. auto.
  - intros Hno Hnone.
    destruct (existsb (String.eqb main_data) dir) eqn:E;
      [apply main_data_found in E; contradiction|].
    replace (filter is_csv dir) with (@nil string); [simpl; eauto|].
    clear -Hnone. induction dir as [|x dir IH]; simpl; auto.
    rewrite (Hnone x) by (simpl; auto). apply IH.
    intros; apply Hnone; simpl; auto.
Qed.

Example discover_main :
  discover ["zz.csv"; "main_data.csv"; "aa.csv"] = Loaded "main_data.csv".
Proof. reflexivity. Qed.

Example discover_first_csv :
  discover ["notes.txt"; "orders.csv"; "customers.csv"; "csv"]
  = Loaded "customers.csv".
Proof. reflexivity. Qed.

Example discover_nothing :
  discover ["notes.txt"; "dashboard.py"]
  = Halted "Tidak ada file .csv di folder".
Proof. reflexivity. Qed.

End DiscoveryFacts.


(* ------------------------------------------------------------------ *)
(** ** The aggregations *)

Module AggregationFacts.
Import Pandas PandasFacts Dashboard Libraries.

Lemma present_Some (N : Numeric) (c : option number) (v : number) :
  present c = Some v <-> c = Some v /\ isnan v = false.
Proof.
  unfold present. destruct c as [x|]; [|split; [discriminate|tauto]].
  destruct (isnan x) eqn:E; split.
  - discriminate.
  - intros [H1 H2]. inversion H1; subst. congruence.
  - intros H. inversion H; subst. auto.
  - intros [H _]. exact H.
Qed.


Section Tables.
Context {N : Numeric} {S : Sorter}.
Context {NS : NumericSpec N} {SS : SorterSpec S}.

Lemma segment_table_keys (T : Type) (mk : string * DataFrame -> T)
    (key : T -> string) (d : DataFrame) (by_ : Row -> option string) :
  (forall g, key (mk g) = fst g) ->
  map key (map mk (groupby by_ d)) = map fst (groupby by_ d).
Proof.
  intros H. rewrite map_map. apply map_ext. exact H.
Qed.

(** The keys of a table made of one row per group and sorted. *)
Lemma sorted_table_keys (T V : Type) (mk : string * DataFrame -> T)
    (key : T -> string) (col : T -> option V) (leb : V -> V -> bool)
    (by_ : Row -> option string) (d : DataFrame) :
  (forall g, key (mk g) = fst g) ->
  Permutation
    (map key (sort_values col leb false (map mk (groupby by_ d))))
    (map fst (groupby by_ d)).
Proof.
  intros Hkey.
  rewrite (Permutation_map key (sort_values_perm col leb false _)).
  now rewrite segment_table_keys.
Qed.

Lemma sorted_table_key_In (T V : Type) (mk : string * DataFrame -> T)
    (key : T -> string) (col : T -> option V) (leb : V -> V -> bool)
    (by_ : Row -> option string) (d : DataFrame) (k : string) :
  (forall g, key (mk g) = fst g) ->
  In k (map key (sort_values col leb false (map mk (groupby by_ d))))
  <-> exists r, In r d /\ by_ r = Some k.
Proof.
  intros Hkey. rewrite <- groupby_key_In.
  pose proof (sorted_table_keys mk key col leb by_ d Hkey) as Hp.
  split; apply Permutation_in; auto. now symmetry.
Qed.

Lemma sorted_table_NoDup (T V : Type) (mk : string * DataFrame -> T)
    (key : T -> string) (col : T -> option V) (leb : V -> V -> bool)
    (by_ : Row -> option string) (d : DataFrame) :
  (forall g, key (mk g) = fst g) ->
  NoDup (map key (sort_values col leb false (map mk (groupby by_ d)))).
Proof.
  intros Hkey.
  eapply Permutation_NoDup;
    [symmetry; apply (sorted_table_keys mk key col leb by_ d Hkey)|].
  apply groupby_keys_NoDup.
Qed.

(** A row of a sorted table is the row of a group of the dataset. *)
Lemma sorted_table_row (T V : Type) (mk : string * DataFrame -> T)
    (col : T -> option V) (leb : V -> V -> bool)
    (by_ : Row -> option string) (d : DataFrame) (t : T) :
  In t (sort_values col leb false (map mk (groupby by_ d))) ->
  exists k, t = mk (k, filter (fun r => eq_scalar (by_ r) k) d).
Proof.
  intros Ht. apply sort_values_In in Ht.
  apply in_map_iff in Ht as [[k rows] [<- Hg]]. exists k.
  apply groupby_In in Hg. simpl in Hg. now subst rows.
Qed.

(** *** Segment revenue *)




(** *** Segment customer count *)

(** C6, as the code has it. The segment customer count has one row per
    segment present in the filtered dataset, holding the number of distinct
    customers of the segment's rows, and lists the rows by descending
    [customers]; the order of rows with equal [customers] is left to the
    sort, and the table does not depend on the order of the rows of the
    dataset, so not on which segment appears first. *)
Theorem segment_customer_count_spec (d : DataFrame) :
  (forall k, In k (map sc_rfm_segment (create_rfm_segment_df d))
             <-> exists r, In r d /\ rfm_segment r = Some k)
  /\ NoDup (map sc_rfm_segment (create_rfm_segment_df d))
  /\ (forall t, In t (create_rfm_segment_df d) ->
        sc_customers t
        = nunique (map customer_unique_id (segment_rows d (sc_rfm_segment t))))
  /\ StronglySorted customers_desc (create_rfm_segment_df d)
  /\ (forall d', Permutation d d' ->
        create_rfm_segment_df d' = create_rfm_segment_df d).
Proof.
  unfold create_rfm_segment_df.
  split; [|split; [|split; [|split]]].
  - intros k. now apply sorted_table_key_In.
  - now apply sorted_table_NoDup.
  - intros t Ht. apply sorted_table_row in Ht as [k ->]. reflexivity.
  - rewrite sort_values_total by (intros r; discriminate).
    eapply StronglySorted_weaken with (P := fun _ => True);
      [| |apply sorted_rows_desc with (ok := fun _ => True)].
    + intros a b _ _ [va [vb [Ea [Eb Hle]]]].
      inversion Ea; inversion Eb; subst. now apply Nat.leb_le.
    + apply Forall_forall. auto.
    + intros a b _ _. apply nat_leb_total.
    + intros a b c _ _ _. apply nat_leb_trans.
    + auto.
  - intros d' Hp. f_equal. apply grouped_table_perm; auto.
    intros k l l' Hl. cbn [fst snd]. f_equal.
    apply nunique_perm. now apply Permutation_map.
Qed.

(** *** Average revenue per customer *)

(** C2. The average table has one row per segment present in the
    dataset.  A row of a segment without any customer has a missing
    average, a row with customers has [total_revenue / customers], and the
    table lists the rows with an average first, by descending average, and
    the rows without one after them. *)
Theorem avg_revenue_per_customer_spec (d : DataFrame) :
  (forall k, In k (map sa_rfm_segment (create_avg_rev_per_customer_df d))
             <-> exists r, In r d /\ rfm_segment r = Some k)
  /\ NoDup (map sa_rfm_segment (create_avg_rev_per_customer_df d))
  /\ (forall t, In t (create_avg_rev_per_customer_df d) ->
     sa_customers t
     = nunique (map customer_unique_id (segment_rows d (sa_rfm_segment t)))
     /\ sa_total_revenue t
        = group_sum (map order_revenue (segment_rows d (sa_rfm_segment t)))
     /\ (sa_customers t = 0%nat -> sa_avg_revenue_per_customer t = None)
     /\ ((0 < sa_customers t)%nat ->
         sa_avg_revenue_per_customer t
         = Some (truediv (sa_total_revenue t) (sa_customers t))))
  /\ exists defined undefined,
       create_avg_rev_per_customer_df d = defined ++ undefined
       /\ Forall (fun t => present (sa_avg_revenue_per_customer t) <> None)
            defined
       /\ Forall (fun t => present (sa_avg_revenue_per_customer t) = None)
            undefined
       /\ StronglySorted avg_desc defined.
Proof.
  unfold create_avg_rev_per_customer_df.
  split; [|split; [|split]].
  - intros k. now apply sorted_table_key_In.
  - now apply sorted_table_NoDup.
  - intros t Ht. apply sorted_table_row in Ht as [k ->].
    cbn [sa_customers sa_total_revenue sa_rfm_segment
         sa_avg_revenue_per_customer fst snd].
    fold (segment_rows d k). repeat split.
    + intros ->. reflexivity.
    + intros Hpos. unfold replace_0_NA.
      destruct (Nat.eqb_spec
                  (nunique (map customer_unique_id (segment_rows d k))) 0);
        [lia|reflexivity].
  - rewrite sort_values_split.
    match goal with
    | |- context [sorted_rows ?c ?l false ?tb] =>
        exists (sorted_rows c l false tb), (filter (fun t => isna (c t)) tb);
        set (table := tb)
    end.
    split; [reflexivity|]. split; [|split].
    + apply Forall_forall. intros t Ht.
      apply (Permutation_in _ (sorted_rows_perm _ _ _ _)) in Ht.
      apply filter_In in Ht as [_ Ht].
      now destruct (present (sa_avg_revenue_per_customer t)).
    + apply Forall_forall. intros t Ht. apply filter_In in Ht as [_ Ht].
      now destruct (present (sa_avg_revenue_per_customer t)).
    + eapply StronglySorted_weaken with (P := fun _ => True);
        [| |apply sorted_rows_desc with (ok := fun v => isnan v = false)].
      * intros a b _ _ [x [y [Ea [Eb Hle]]]].
        apply present_Some in Ea as [Ea _]. apply present_Some in Eb as [Eb _].
        exists x, y. auto.
      * apply Forall_forall. auto.
      * apply num_leb_total.
      * apply num_leb_trans.
      * intros r v _ Hv. now apply present_Some in Hv.
Qed.

(** *** State performance *)

Lemma state_perf_NoDup (d : DataFrame) :
  NoDup (map sp_customer_state (create_state_perf_df d)).
Proof.
  unfold create_state_perf_df. now apply sorted_table_NoDup.
Qed.

Lemma orders_sorted (tb : list StatePerf) :
  StronglySorted (fun a b => (sp_total_orders b <= sp_total_orders a)%nat)
    (sort_values (fun t => Some (sp_total_orders t)) Nat.leb false tb).
Proof.
  rewrite sort_values_total by (intros r; discriminate).
  eapply StronglySorted_weaken with (P := fun _ => True);
    [| |apply sorted_rows_desc with (ok := fun _ => True)].
  - intros a b _ _ [x [y [Ea [Eb Hle]]]].
    inversion Ea; inversion Eb; subst. now apply Nat.leb_le.
  - apply Forall_forall. auto.
  - intros a b _ _. apply nat_leb_total.
  - intros a b c _ _ _. apply nat_leb_trans.
  - auto.
Qed.


End Tables.

(** *** At concrete data *)

(** On the library that never rounds, every dataset adds up exactly. *)
Lemma rational_sums_exact (S : Sorter) (d : @DataFrame Rational) :
  @revenue_sums_exact Rational S (fun q : Q => q) d.
Proof.
  unfold revenue_sums_exact.
  repeat (split; [now apply Rational_exact|]).
  split; [intros k|]; now apply Rational_exact.
Qed.




(** The unsegmented order of the sample counts in the KPI only. *)
Example kpi_revenue_exact_rows :
  total_revenue Samples.exact_rows = 157.75%float
  /\ segment_revenue_sum (S := Insertion) Samples.exact_rows = 150.5%float
  /\ null_segment_revenue Samples.exact_rows = 7.25%float
  /\ f64_value 157.75 == 150.5 + 7.25.
Proof. repeat split. Qed.

(** The same on rationals. *)
Example kpi_revenue_with_unsegmented_order :
  total_revenue Samples.with_unsegmented_order == 107
  /\ segment_revenue_sum (S := Insertion) Samples.with_unsegmented_order
     == 100
  /\ null_segment_revenue Samples.with_unsegmented_order == 7.
Proof. repeat split. Qed.

Lemma segment_customer_count_spec_witness :
  (forall k, In k (map sc_rfm_segment
                     (create_rfm_segment_df (S := Insertion) Samples.scenario))
             <-> exists r, In r Samples.scenario /\ rfm_segment r = Some k)
  /\ NoDup (map sc_rfm_segment
              (create_rfm_segment_df (S := Insertion) Samples.scenario))
  /\ (forall t, In t (create_rfm_segment_df (S := Insertion) Samples.scenario)
        -> sc_customers t
           = nunique (map customer_unique_id
                        (segment_rows Samples.scenario (sc_rfm_segment t))))
  /\ StronglySorted customers_desc
       (create_rfm_segment_df (S := Insertion) Samples.scenario)
  /\ (forall d', Permutation Samples.scenario d' ->
        create_rfm_segment_df (S := Insertion) d'
        = create_rfm_segment_df (S := Insertion) Samples.scenario).
Proof.
  apply (@segment_customer_count_spec Rational Insertion Insertion_spec
           Samples.scenario).
Defined.

Example segment_customers_scenario :
  create_rfm_segment_df (S := Insertion) Samples.scenario
  = [ {| sc_rfm_segment := "Champions"; sc_customers := 2 |};
      {| sc_rfm_segment := "At Risk"; sc_customers := 1 |} ].
Proof. reflexivity. Qed.

(** The grouped table is in key order before it is sorted, whatever the
    order of first appearance. *)
Example grouped_keys_forget_first_seen :
  first_seen Samples.tied_segments = ["B"%string; "A"%string]
  /\ map fst (groupby rfm_segment Samples.tied_segments)
     = ["A"%string; "B"%string]
  /\ map fst (groupby rfm_segment (rev Samples.tied_segments))
     = ["A"%string; "B"%string].
Proof. repeat split. Qed.

(** Segments ["A"] and ["B"] have one customer each.  Whatever the sort
    does with them, it does the same when ["B"] is seen first and when
    ["A"] is, so that in one of the two datasets the segment seen first
    comes second. *)
Lemma ties_not_in_first_seen_order :
  ~ exists S : Sorter,
      SorterSpec S
      /\ ties_in_first_seen_order (S := S) Samples.tied_segments
      /\ ties_in_first_seen_order (S := S) (rev Samples.tied_segments).
Proof.
  intros [S [SS [H1 H2]]].
  set (a := {| sc_rfm_segment := "A"; sc_customers := 1 |}).
  set (b := {| sc_rfm_segment := "B"; sc_customers := 1 |}).
  set (col := fun t : SegmentCustomers => Some (sc_customers t)).
  assert (E1 : create_rfm_segment_df (S := S) Samples.tied_segments
               = sort_values col Nat.leb false [a; b]) by reflexivity.
  assert (E2 : create_rfm_segment_df (S := S) (rev Samples.tied_segments)
               = sort_values col Nat.leb false [a; b]) by reflexivity.
  destruct (sort_values_two col Nat.leb false a b) as [E|E].
  - destruct (H1 0%nat 1%nat a b) as [p [q [Hp [Hq Hlt]]]];
      try (rewrite E1, E); try reflexivity; [lia|].
    vm_compute in Hp, Hq. inversion Hp; inversion Hq; subst. lia.
  - destruct (H2 0%nat 1%nat b a) as [p [q [Hp [Hq Hlt]]]];
      try (rewrite E2, E); try reflexivity; [lia|].
    vm_compute in Hp, Hq. inversion Hp; inversion Hq; subst. lia.
Qed.

Lemma avg_revenue_per_customer_spec_witness :
  let table := create_avg_rev_per_customer_df (S := Insertion)
                 Samples.anonymous_rows in
  (forall k, In k (map sa_rfm_segment table)
             <-> exists r, In r Samples.anonymous_rows
                           /\ rfm_segment r = Some k)
  /\ NoDup (map sa_rfm_segment table)
  /\ (forall t, In t table ->
     sa_customers t
     = nunique (map customer_unique_id
                  (segment_rows Samples.anonymous_rows (sa_rfm_segment t)))
     /\ sa_total_revenue t
        = group_sum (map order_revenue
                       (segment_rows Samples.anonymous_rows
                          (sa_rfm_segment t)))
     /\ (sa_customers t = 0%nat -> sa_avg_revenue_per_customer t = None)
     /\ ((0 < sa_customers t)%nat ->
         sa_avg_revenue_per_customer t
         = Some (truediv (sa_total_revenue t) (sa_customers t))))
  /\ exists defined undefined,
       table = defined ++ undefined
       /\ Forall (fun t => present (sa_avg_revenue_per_customer t) <> None)
            defined
       /\ Forall (fun t => present (sa_avg_revenue_per_customer t) = None)
            undefined
       /\ StronglySorted avg_desc defined.
Proof.
  apply (@avg_revenue_per_customer_spec Float64 Insertion Float64_spec
           Insertion_spec Samples.anonymous_rows).
Defined.

Example avg_revenue_anonymous_rows :
  map (fun t => (sa_rfm_segment t, sa_customers t,
                 sa_avg_revenue_per_customer t))
      (create_avg_rev_per_customer_df (S := Insertion)
         Samples.anonymous_rows)
  = [ ("Loyal"%string, 1%nat, Some 80%float); ("Lost"%string, 0%nat, None) ].
Proof. reflexivity. Qed.

(** A segment whose rows name no customer gets a missing average and the
    last place, whatever its revenue. *)
Example avg_revenue_anonymous_segment :
  map (fun t => (sa_rfm_segment t, sa_customers t,
                 sa_avg_revenue_per_customer t))
      (create_avg_rev_per_customer_df (S := Insertion)
         Samples.anonymous_segment)
  = [ ("Loyal"%string, 1%nat, Some (80 / 1)); ("Lost"%string, 0%nat, None) ].
Proof. reflexivity. Qed.


Example state_views_scenario :
  fig4_data (S := Insertion) Samples.scenario
  = [ @Build_StatePerf Rational "SP" 2 150;
      @Build_StatePerf Rational "RJ" 1 30 ]
  /\ fig5_data (S := Insertion) Samples.scenario
     = fig4_data (S := Insertion) Samples.scenario.
Proof. split; reflexivity. Qed.

(** *** On float64 *)

(** Revenues 0.1, 0.4, 0.1 in segments A, B, A: the groups sum to 0.2 and
    0.4, which add up to 0.6000000000000001 in either order, while the
    three revenues in their order add up to 0.6. *)
Example rounding_rows_sums :
  create_rfm_revenue_df (S := Insertion) Samples.rounding_rows
  = [ @Build_SegmentRevenue Float64 "B" 0x1.999999999999ap-2%float;
      @Build_SegmentRevenue Float64 "A" 0x1.999999999999ap-3%float ]
  /\ segment_revenue_sum (S := Insertion) Samples.rounding_rows
     = 0x1.3333333333334p-1%float
  /\ total_revenue Samples.rounding_rows = 0x1.3333333333333p-1%float.
Proof. repeat split. Qed.





End AggregationFacts.

(* ------------------------------------------------------------------ *)
(** ** The map sample *)

Module MapFacts.
Import Pandas PandasFacts Dashboard Libraries.

Lemma take_in_range (R : Type) (df : list R) (indices : list nat) :
  Forall (fun i => (i < List.length df)%nat) indices ->
  exists s, take df indices = Some s
    /\ List.length s = List.length indices
    /\ forall r, In r s -> In r df.
Proof.
  induction 1 as [|i rest Hi _ IH]; simpl.
  - exists []. repeat split; auto. intros r [].
  - destruct IH as [s [-> [Hlen Hin]]].
    destruct (nth_error df i) as [r|] eqn:E;
      [|now apply nth_error_Some in Hi].
    exists (r :: s). repeat split; simpl; auto.
    intros r' [<-|Hr']; auto. eapply nth_error_In; eauto.
Qed.

Section Sampled.
Context {N : Numeric}.
Variable RandomState : Type.
Variable seeded : Z -> RandomState.
Variable permutation : RandomState -> nat -> list nat.

(** What numpy documents of [permutation(n)]: a rearrangement of
    [0, ..., n-1]. *)
Hypothesis permutation_spec :
  forall rs n, Permutation (permutation rs n) (seq 0 n).

Lemma sample_exact (R : Type) (n : nat) (random_state : option Z)
    (ambient : RandomState) (df : list R) :
  (n <= List.length df)%nat ->
  exists s, sample seeded permutation n random_state ambient df = Some s
    /\ List.length s = n
    /\ forall r, In r s -> In r df.
Proof.
  intros Hn. unfold sample.
  destruct (Nat.leb_spec n (List.length df)) as [_|]; [|lia].
  set (rs := match random_state with Some s => seeded s | None => ambient end).
  pose proof (permutation_spec rs (List.length df)) as Hp.
  destruct (@take_in_range R df
              (firstn n (permutation rs (List.length df))))
    as [s [Hs [Hlen Hin]]].
  - apply Forall_forall. intros i Hi. apply firstn_In in Hi.
    apply (Permutation_in _ Hp), in_seq in Hi. lia.
  - exists s. repeat split; auto.
    rewrite Hlen, length_firstn, (Permutation_length Hp), length_seq. lia.
Qed.

(** C7. When more than 3000 rows of the filtered dataset have both
    coordinates, the rows put on the map are exactly 3000 of these rows,
    and they are the same whatever the state of the ambient generator,
    the sample being drawn from a generator seeded with 42. *)
Theorem map_sample_3000 (ambient : RandomState) (d : DataFrame) :
  (3000 < List.length (dropna_geo d))%nat ->
  exists s, df_map seeded permutation true ambient d = Markers s
    /\ List.length s = 3000%nat
    /\ (forall r, In r s ->
          In r d /\ geolocation_lat r <> None /\ geolocation_lng r <> None)
    /\ forall ambient', df_map seeded permutation true ambient' d = Markers s.
Proof.
  intros Hlen.
  destruct (@sample_exact Row 3000 (Some 42%Z) ambient (dropna_geo d))
    as [s [Hs [Hl Hin]]]; [lia|].
  assert (Hrun : forall a, df_map seeded permutation true a d = Markers s).
  { intros a. unfold df_map. cbn [andb].
    destruct (Nat.ltb_spec 0 (List.length (dropna_geo d))) as [_|]; [|lia].
    destruct (Nat.ltb_spec 3000 (List.length (dropna_geo d))) as [_|]; [|lia].
    unfold sample in *. now rewrite Hs. }
  exists s. repeat split; auto.
  - apply Hin in H. now apply filter_In in H.
  - apply Hin, filter_In in H as [_ H].
    apply andb_true_iff in H as [H _]. now destruct (geolocation_lat r).
  - apply Hin, filter_In in H as [_ H].
    apply andb_true_iff in H as [_ H]. now destruct (geolocation_lng r).
Qed.
End Sampled.

Lemma map_sample_3000_witness :
  exists s,
    df_map (fun _ => tt) Samples.reversal true tt Samples.crowd = Markers s
    /\ List.length s = 3000%nat
    /\ (forall r, In r s ->
          In r Samples.crowd
          /\ geolocation_lat r <> None /\ geolocation_lng r <> None)
    /\ forall ambient',
         df_map (fun _ => tt) Samples.reversal true ambient' Samples.crowd
         = Markers s.
Proof.
  apply (@map_sample_3000 Rational unit (fun _ => tt) Samples.reversal).
  - intros rs n. symmetry. apply Permutation_rev.
  - apply Nat.ltb_lt. vm_compute. reflexivity.
Defined.

End MapFacts.


(* ------------------------------------------------------------------ *)
(** ** The sidebar and the filter *)

Module SidebarFacts.
Import Pandas PandasFacts Dashboard FilterFacts AggregationFacts Libraries.

Lemma ts_leb_date (a b : Timestamp) :
  ts_leb a b = true -> (ts_date a <= ts_date b)%Z.
Proof.
  unfold ts_leb. rewrite orb_true_iff, andb_true_iff, Z.ltb_lt, Z.eqb_eq. lia.
Qed.

Lemma ts_leb_false_date (a b : Timestamp) :
  ts_leb a b = false -> (ts_date b <= ts_date a)%Z.
Proof.
  unfold ts_leb. rewrite orb_false_iff, Z.ltb_ge. tauto.
Qed.

Lemma ts_min_least (s : list (option Timestamp)) (m : Timestamp) :
  ts_min s = Some m ->
  In (Some m) s /\ forall t, In (Some t) s -> (ts_date m <= ts_date t)%Z.
Proof.
  revert m. induction s as [|[t|] s IH]; simpl; intros m E; try discriminate.
  - destruct (ts_min s) as [m'|] eqn:Em.
    + destruct (IH m' eq_refl) as [Hin Hle].
      destruct (ts_leb t m') eqn:Hc; inversion E; subst; split; auto.
      * intros t' [H|H]; [inversion H; lia|].
        apply ts_leb_date in Hc. specialize (Hle t' H). lia.
      * intros t' [H|H]; [inversion H; subst; now apply ts_leb_false_date|].
        auto.
    + inversion E; subst. split; auto.
      intros t' [H|H]; [inversion H; lia|].
      exfalso. clear -Em H. induction s as [|[x|] s IH]; simpl in *.
      * destruct H.
      * destruct (ts_min s); discriminate.
      * destruct H as [H|H]; [discriminate|auto].
  - destruct (IH m E) as [Hin Hle]. split; auto.
    intros t' [H|H]; [discriminate|auto].
Qed.

Lemma ts_max_greatest (s : list (option Timestamp)) (m : Timestamp) :
  ts_max s = Some m ->
  In (Some m) s /\ forall t, In (Some t) s -> (ts_date t <= ts_date m)%Z.
Proof.
  revert m. induction s as [|[t|] s IH]; simpl; intros m E; try discriminate.
  - destruct (ts_max s) as [m'|] eqn:Em.
    + destruct (IH m' eq_refl) as [Hin Hle].
      destruct (ts_leb m' t) eqn:Hc; inversion E; subst; split; auto.
      * intros t' [H|H]; [inversion H; lia|].
        apply ts_leb_date in Hc. specialize (Hle t' H). lia.
      * intros t' [H|H]; [inversion H; subst; now apply ts_leb_false_date|].
        auto.
    + inversion E; subst. split; auto.
      intros t' [H|H]; [inversion H; lia|].
      exfalso. clear -Em H. induction s as [|[x|] s IH]; simpl in *.
      * destruct H.
      * destruct (ts_max s); discriminate.
      * destruct H as [H|H]; [discriminate|auto].
  - destruct (IH m E) as [Hin Hle]. split; auto.
    intros t' [H|H]; [discriminate|auto].
Qed.

Section Sidebar.
Context {N : Numeric} {S : Sorter} {SS : SorterSpec S}.

(** X1. With the bounds the date picker starts from and no state or
    segment selected, the filter keeps every row that has a purchase
    timestamp and drops only the rows without one; the lower bound is not
    after the upper one. *)
Theorem default_view_keeps_dated_rows (df : DataFrame) (lo hi : Date) :
  min_date df = Some lo -> max_date df = Some hi ->
  (lo <= hi)%Z
  /\ df_f df lo hi All All
     = filter (fun r => notna (order_purchase_timestamp r)) df.
Proof.
  unfold min_date, max_date, dt_date. intros Hlo Hhi.
  destruct (ts_min (map order_purchase_timestamp df)) as [m|] eqn:Em;
    [|discriminate].
  destruct (ts_max (map order_purchase_timestamp df)) as [M|] eqn:EM;
    [|discriminate].
  inversion Hlo; inversion Hhi; subst.
  destruct (ts_min_least _ Em) as [Hm Hmin].
  destruct (ts_max_greatest _ EM) as [_ Hmax].
  split; [now apply Hmax|].
  rewrite df_f_filter. apply filter_ext_in. intros r Hr.
  unfold notna, isna.
  destruct (order_purchase_timestamp r) as [t|] eqn:Et.
  - assert (Hin : In (Some t) (map order_purchase_timestamp df))
      by (rewrite <- Et; now apply in_map).
    pose proof (Hmin t Hin). pose proof (Hmax t Hin).
    apply keepsb_keeps. unfold keeps. rewrite Et.
    split; [exists t; split; auto; lia|auto].
  - unfold keepsb. now rewrite Et.
Qed.

Lemma options_sorted_present (R : Type) (col : R -> option string)
    (df : list R) :
  let present := stable_sort String.leb (unique (dropna (map col df))) in
  StronglySorted (fun a b => String.ltb a b = true) present
  /\ forall k, In k present <-> exists r, In r df /\ col r = Some k.
Proof.
  cbv zeta. rewrite <- groupby_keys. split.
  - apply groupby_keys_sorted.
  - apply groupby_key_In.
Qed.

(** X2. Each select box offers the ["(All)"] sentinel first and then the
    values present in its column, every one once and in ascending order;
    the states offered are the states of the state performance table of the
    whole dataset, and the segments those of its segment tables. *)
Theorem select_options_spec (df : DataFrame) :
  exists states segments,
    state_opt df = All :: states /\ seg_opt df = All :: segments
    /\ StronglySorted (fun a b => String.ltb a b = true) states
    /\ StronglySorted (fun a b => String.ltb a b = true) segments
    /\ (forall k, In k states
                  <-> exists r, In r df /\ customer_state r = Some k)
    /\ (forall k, In k segments
                  <-> exists r, In r df /\ rfm_segment r = Some k)
    /\ Permutation states
         (map sp_customer_state (create_state_perf_df df))
    /\ Permutation segments
         (map sc_rfm_segment (create_rfm_segment_df df)).
Proof.
  exists (stable_sort String.leb (unique (dropna (map customer_state df)))),
         (stable_sort String.leb (unique (dropna (map rfm_segment df)))).
  destruct (options_sorted_present customer_state df) as [Hs1 Hs2].
  destruct (options_sorted_present rfm_segment df) as [Hg1 Hg2].
  repeat split; try apply Hs2; try apply Hg2; auto.
  - unfold create_state_perf_df. rewrite <- groupby_keys. symmetry.
    now apply sorted_table_keys.
  - unfold create_rfm_segment_df. rewrite <- groupby_keys. symmetry.
    now apply sorted_table_keys.
Qed.

Lemma keeps_wider (lo hi lo' hi' : Date) (st sg st' sg' : string) (r : Row) :
  (lo' <= lo)%Z -> (hi <= hi')%Z ->
  st' = All \/ st' = st -> sg' = All \/ sg' = sg ->
  keeps lo hi st sg r -> keeps lo' hi' st' sg' r.
Proof.
  intros Hlo Hhi Hst Hsg [[t [Et Hd]] [Hs Hg]]. repeat split.
  - exists t. split; auto. lia.
  - destruct Hst as [-> | ->]; auto.
  - destruct Hsg as [-> | ->]; auto.
Qed.

(** X3. Filtering an already filtered dataset again with a filter that is
    no wider (dates within the earlier bounds, and each select box either
    unchanged or changed from ["(All)"]) gives what that filter gives on the
    whole dataset; in particular filtering twice with one filter changes
    nothing, and a narrower filter never keeps more rows. *)
Theorem filter_narrows (df : DataFrame) (lo hi lo' hi' : Date)
    (st sg st' sg' : string) :
  (lo' <= lo)%Z -> (hi <= hi')%Z ->
  st' = All \/ st' = st -> sg' = All \/ sg' = sg ->
  df_f (df_f df lo' hi' st' sg') lo hi st sg = df_f df lo hi st sg
  /\ (List.length (df_f df lo hi st sg)
      <= List.length (df_f df lo' hi' st' sg'))%nat.
Proof.
  intros Hlo Hhi Hst Hsg.
  assert (E : df_f (df_f df lo' hi' st' sg') lo hi st sg
              = df_f df lo hi st sg).
  { rewrite !df_f_filter, filter_filter. apply filter_ext. intros r.
    destruct (keepsb lo hi st sg r) eqn:Ek; [|apply andb_false_r].
    rewrite andb_true_r. apply keepsb_keeps.
    apply keepsb_keeps in Ek. eapply keeps_wider; eauto. }
  split; [exact E|]. rewrite <- E, (df_f_filter (df_f df lo' hi' st' sg')).
  apply filter_length_le.
Qed.

End Sidebar.

Lemma default_view_keeps_dated_rows_witness :
  (738000 <= 738002)%Z
  /\ df_f Samples.with_undated_order 738000%Z 738002%Z All All
     = filter (fun r => notna (order_purchase_timestamp r))
         Samples.with_undated_order.
Proof.
  apply (@default_view_keeps_dated_rows Rational Samples.with_undated_order);
    reflexivity.
Defined.

Lemma select_options_spec_witness :
  exists states segments,
    state_opt Samples.scenario = All :: states
    /\ seg_opt Samples.scenario = All :: segments
    /\ StronglySorted (fun a b => String.ltb a b = true) states
    /\ StronglySorted (fun a b => String.ltb a b = true) segments
    /\ (forall k, In k states
                  <-> exists r, In r Samples.scenario
                                /\ customer_state r = Some k)
    /\ (forall k, In k segments
                  <-> exists r, In r Samples.scenario
                                /\ rfm_segment r = Some k)
    /\ Permutation states
         (map sp_customer_state
            (create_state_perf_df (S := Insertion) Samples.scenario))
    /\ Permutation segments
         (map sc_rfm_segment
            (create_rfm_segment_df (S := Insertion) Samples.scenario)).
Proof.
  apply (@select_options_spec Rational Insertion Insertion_spec
           Samples.scenario).
Defined.

Lemma filter_narrows_witness :
  df_f (df_f Samples.scenario 737000%Z 739000%Z All All)
       738000%Z 738000%Z "SP" "Champions"
  = df_f Samples.scenario 738000%Z 738000%Z "SP" "Champions"
  /\ (List.length (df_f Samples.scenario 738000%Z 738000%Z "SP" "Champions")
      <= List.length (df_f Samples.scenario 737000%Z 739000%Z All All))%nat.
Proof.
  apply (@filter_narrows Rational Samples.scenario); try lia; now left.
Defined.

End SidebarFacts.

(* ------------------------------------------------------------------ *)
(** ** The charts under a selected segment or state *)

Module SelectionFacts.
Import Pandas PandasFacts Dashboard FilterFacts Libraries.

Lemma unique_constant (R : Type) (col : R -> option string) (k : string)
    (d : list R) :
  (forall r, In r d -> col r = Some k) ->
  unique (dropna (map col d)) = match d with [] => [] | _ :: _ => [k] end.
Proof.
  induction d as [|r d IH]; intros H; [reflexivity|].
  simpl. rewrite (H r) by (simpl; auto). simpl. f_equal.
  rewrite IH by (intros; apply H; simpl; auto).
  destruct d; simpl; auto. now rewrite String.eqb_refl.
Qed.

Lemma filter_all (R : Type) (f : R -> bool) (d : list R) :
  (forall r, In r d -> f r = true) -> filter f d = d.
Proof.
  induction d as [|r d IH]; intros H; simpl; auto.
  rewrite (H r) by (simpl; auto). f_equal. apply IH.
  intros; apply H; simpl; auto.
Qed.

(** A dataset whose rows all carry the key [k] makes one group. *)
Lemma groupby_constant (R : Type) (col : R -> option string) (k : string)
    (d : list R) :
  d <> [] -> (forall r, In r d -> col r = Some k) ->
  groupby col d = [(k, d)].
Proof.
  intros Hne H. unfold groupby. rewrite (@unique_constant _ col k d H).
  destruct d as [|r d]; [congruence|]. cbn [stable_sort insert map].
  do 2 f_equal. apply filter_all. intros x Hx.
  rewrite (H x Hx). apply String.eqb_refl.
Qed.

Section Selection.
Context {N : Numeric} {S : Sorter} {SS : SorterSpec S}.

Lemma df_f_segment (df : DataFrame) (lo hi : Date) (st seg : string) (r : Row) :
  seg <> All -> In r (df_f df lo hi st seg) -> rfm_segment r = Some seg.
Proof.
  intros Hs Hr. rewrite df_f_filter in Hr. apply filter_In in Hr as [_ Hr].
  apply keepsb_keeps in Hr as [_ [_ [E|E]]]; [contradiction|exact E].
Qed.

Lemma df_f_state (df : DataFrame) (lo hi : Date) (st seg : string) (r : Row) :
  st <> All -> In r (df_f df lo hi st seg) -> customer_state r = Some st.
Proof.
  intros Hs Hr. rewrite df_f_filter in Hr. apply filter_In in Hr as [_ Hr].
  apply keepsb_keeps in Hr as [_ [[E|E] _]]; [contradiction|exact E].
Qed.

(** X4. When a segment is selected and the filter keeps some row, each of
    the three segment tables has the one row of that segment: its
    [customers] is the KPI [total_customers], and its [total_revenue] is
    the [groupby] sum of the revenue of all the rows kept. *)
Theorem selected_segment_tables (df : DataFrame) (lo hi : Date)
    (st seg : string) :
  seg <> All ->
  let d := df_f df lo hi st seg in
  d <> [] ->
  create_rfm_segment_df d
  = [ {| sc_rfm_segment := seg; sc_customers := total_customers d |} ]
  /\ create_rfm_revenue_df d
     = [ {| sr_rfm_segment := seg;
            sr_total_revenue := group_sum (map order_revenue d) |} ]
  /\ create_avg_rev_per_customer_df d
     = [ {| sa_rfm_segment := seg;
            sa_customers := total_customers d;
            sa_total_revenue := group_sum (map order_revenue d);
            sa_avg_revenue_per_customer :=
              div_cell (group_sum (map order_revenue d))
                (replace_0_NA (total_customers d)) |} ].
Proof.
  intros Hs d Hne.
  assert (Hg : groupby rfm_segment d = [(seg, d)]).
  { apply groupby_constant; auto. intros r Hr.
    eapply df_f_segment; eauto. }
  unfold create_rfm_segment_df, create_rfm_revenue_df,
    create_avg_rev_per_customer_df.
  rewrite Hg. cbn [map fst snd]. rewrite !sort_values_singleton.
  repeat split.
Qed.

(** X5. When a state is selected and the filter keeps some row, the state
    performance table has the one row of that state, holding the KPI
    [total_orders] and the [groupby] sum of the revenue of all the rows
    kept, and both state charts show that row. *)
Theorem selected_state_table (df : DataFrame) (lo hi : Date)
    (st seg : string) :
  st <> All ->
  let d := df_f df lo hi st seg in
  d <> [] ->
  create_state_perf_df d
  = [ {| sp_customer_state := st;
         sp_total_orders := total_orders d;
         sp_total_revenue := group_sum (map order_revenue d) |} ]
  /\ fig4_data d = create_state_perf_df d
  /\ fig5_data d = create_state_perf_df d.
Proof.
  intros Hs d Hne.
  assert (Hg : groupby customer_state d = [(st, d)]).
  { apply groupby_constant; auto. intros r Hr.
    eapply df_f_state; eauto. }
  unfold fig4_data, fig5_data, create_state_perf_df.
  rewrite Hg. cbn [map fst snd]. rewrite !sort_values_singleton.
  repeat split.
Qed.
End Selection.

Lemma selected_segment_tables_witness :
  let d := df_f Samples.scenario 738000%Z 738000%Z All "Champions" in
  create_rfm_segment_df (S := Insertion) d
  = [ {| sc_rfm_segment := "Champions"; sc_customers := total_customers d |} ]
  /\ create_rfm_revenue_df (S := Insertion) d
     = [ {| sr_rfm_segment := "Champions";
            sr_total_revenue := group_sum (map order_revenue d) |} ]
  /\ create_avg_rev_per_customer_df (S := Insertion) d
     = [ {| sa_rfm_segment := "Champions";
            sa_customers := total_customers d;
            sa_total_revenue := group_sum (map order_revenue d);
            sa_avg_revenue_per_customer :=
              div_cell (group_sum (map order_revenue d))
                (replace_0_NA (total_customers d)) |} ].
Proof.
  apply (@selected_segment_tables Rational Insertion Insertion_spec
           Samples.scenario 738000%Z 738000%Z All "Champions"); discriminate.
Defined.

Lemma selected_state_table_witness :
  let d := df_f Samples.scenario 738000%Z 738000%Z "SP" All in
  create_state_perf_df (S := Insertion) d
  = [ {| sp_customer_state := "SP";
         sp_total_orders := total_orders d;
         sp_total_revenue := group_sum (map order_revenue d) |} ]
  /\ fig4_data (S := Insertion) d = create_state_perf_df (S := Insertion) d
  /\ fig5_data (S := Insertion) d = create_state_perf_df (S := Insertion) d.
Proof.
  apply (@selected_state_table Rational Insertion Insertion_spec
           Samples.scenario 738000%Z 738000%Z "SP" All); discriminate.
Defined.

(** On float64 the one row of a selected segment need not hold the KPI
    [total_revenue]: 1.1, 0.2, 1.1, 0.2 come to 2.6 in the table and to
    2.6000000000000005 in the KPI. *)
Example selected_segment_revenue_float64 :
  let d := [ Samples.frow "o1" "w" (Some "A"%string) 0x1.199999999999ap+0;
             Samples.frow "o2" "x" (Some "A"%string) 0x1.999999999999ap-3;
             Samples.frow "o3" "y" (Some "A"%string) 0x1.199999999999ap+0;
             Samples.frow "o4" "z" (Some "A"%string) 0x1.999999999999ap-3 ] in
  map sr_total_revenue (create_rfm_revenue_df (S := Insertion) d)
  = [ 0x1.4cccccccccccdp+1%float ]
  /\ total_revenue d = 0x1.4cccccccccccep+1%float.
Proof. split; reflexivity. Qed.

End SelectionFacts.

(* ------------------------------------------------------------------ *)
(** ** The summary tables as a whole *)

Module TableFacts.
Import Pandas PandasFacts Dashboard AggregationFacts Libraries.

Lemma StronglySorted_firstn_skipn (A : Type) (R : A -> A -> Prop) (n : nat)
    (l : list A) (a b : A) :
  StronglySorted R l -> In a (firstn n l) -> In b (skipn n l) -> R a b.
Proof.
  intros H. revert n. induction H as [|x l HS IH Hx]; intros n Ha Hb.
  - now rewrite firstn_nil in Ha.
  - destruct n as [|n]; simpl in *; [destruct Ha|].
    destruct Ha as [<-|Ha]; [|eauto].
    rewrite Forall_forall in Hx. apply Hx.
    rewrite <- (firstn_skipn n l). apply in_or_app. now right.
Qed.

Lemma In_firstn_or_skipn (A : Type) (n : nat) (l : list A) (x : A) :
  In x l -> In x (firstn n l) \/ In x (skipn n l).
Proof.
  intros H. rewrite <- (firstn_skipn n l) in H. now apply in_app_or.
Qed.

Lemma StronglySorted_all (A : Type) (R : A -> A -> Prop) (l : list A) :
  (forall a b, In b l -> R a b) -> StronglySorted R l.
Proof.
  intros H. induction l as [|x l IH]; constructor.
  - apply IH. intros; apply H; simpl; auto.
  - apply Forall_forall. intros b Hb. apply H. simpl; auto.
Qed.

Section Tables.
Context {N : Numeric} {S : Sorter}.
Context {NS : NumericSpec N} {SS : SorterSpec S}.

(** A table sorted by a numeric column, descending: the rows whose number
    is NaN come last, the others by descending number. *)
Lemma number_column_sorted (T : Type) (val : T -> number) (tb : list T) :
  StronglySorted
    (fun a b => isnan (val b) = true \/ num_leb (val b) (val a) = true)
    (sort_values (fun t => present (Some (val t))) num_leb false tb).
Proof.
  rewrite sort_values_split. apply StronglySorted_app.
  - eapply StronglySorted_weaken with (P := fun _ => True);
      [| |apply sorted_rows_desc with (ok := fun v => isnan v = false)].
    + intros a b _ _ [x [y [Ea [Eb Hle]]]].
      apply present_Some in Ea as [Ea _]. apply present_Some in Eb as [Eb _].
      inversion Ea; inversion Eb; subst. now right.
    + apply Forall_forall. auto.
    + apply num_leb_total.
    + apply num_leb_trans.
    + intros r v _ Hv. now apply present_Some in Hv.
  - apply StronglySorted_all. intros a b Hb. left.
    apply filter_In in Hb as [_ Hb]. unfold present, isna in Hb.
    now destruct (isnan (val b)).
  - intros a b _ Hb. left.
    apply filter_In in Hb as [_ Hb]. unfold present, isna in Hb.
    now destruct (isnan (val b)).
Qed.

(** X6. The segment revenue table has one row per segment present in the
    dataset, holding the [groupby] sum of the revenue of the segment's
    rows, and lists the rows by descending [total_revenue], a row whose
    revenue is NaN after the others; the order of rows of equal revenue is
    left to the sort. *)
Theorem segment_revenue_table_spec (d : DataFrame) :
  (forall k, In k (map sr_rfm_segment (create_rfm_revenue_df d))
             <-> exists r, In r d /\ rfm_segment r = Some k)
  /\ NoDup (map sr_rfm_segment (create_rfm_revenue_df d))
  /\ (forall t, In t (create_rfm_revenue_df d) ->
        sr_total_revenue t
        = group_sum (map order_revenue (segment_rows d (sr_rfm_segment t))))
  /\ StronglySorted revenue_desc (create_rfm_revenue_df d).
Proof.
  unfold create_rfm_revenue_df. split; [|split; [|split]].
  - intros k. now apply sorted_table_key_In.
  - now apply sorted_table_NoDup.
  - intros t Ht. apply sorted_table_row in Ht as [k ->]. reflexivity.
  - apply (number_column_sorted sr_total_revenue).
Qed.

(** X7. The state performance table has one row per state present,
    sorted by descending [total_revenue] with NaN last; each state chart
    shows at most ten rows, and no state left out of the revenue chart has
    more revenue, and none left out of the orders chart more orders, than
    a state shown in it. *)
Theorem state_charts_top_ten (d : DataFrame) :
  NoDup (map sp_customer_state (create_state_perf_df d))
  /\ (forall k, In k (map sp_customer_state (create_state_perf_df d))
                <-> exists r, In r d /\ customer_state r = Some k)
  /\ StronglySorted state_revenue_desc (create_state_perf_df d)
  /\ List.length (fig4_data d)
     = Nat.min 10 (List.length (create_state_perf_df d))
  /\ List.length (fig5_data d)
     = Nat.min 10 (List.length (create_state_perf_df d))
  /\ (forall a b, In a (fig4_data d) -> In b (create_state_perf_df d) ->
        ~ In b (fig4_data d) -> state_revenue_desc a b)
  /\ (forall a b, In a (fig5_data d) -> In b (create_state_perf_df d) ->
        ~ In b (fig5_data d) -> (sp_total_orders b <= sp_total_orders a)%nat).
Proof.
  assert (Hsorted : StronglySorted state_revenue_desc
                      (create_state_perf_df d))
    by apply (number_column_sorted sp_total_revenue).
  split; [apply state_perf_NoDup|]. split; [|split; [exact Hsorted|]].
  - intros k. unfold create_state_perf_df. now apply sorted_table_key_In.
  - split; [|split; [|split]].
    + unfold fig4_data, head. apply length_firstn.
    + unfold fig5_data, head. rewrite length_firstn.
      now rewrite (Permutation_length (sort_values_perm _ _ _ _)).
    + unfold fig4_data, head. intros a b Ha Hb Hout.
      destruct (In_firstn_or_skipn 10 _ _ Hb) as [H|H]; [contradiction|].
      apply (@StronglySorted_firstn_skipn _ _ _ _ _ _ Hsorted Ha H).
    + unfold fig5_data, head. intros a b Ha Hb Hout.
      apply (sort_values_In (fun t => Some (sp_total_orders t)) Nat.leb false)
        in Hb.
      destruct (In_firstn_or_skipn 10 _ _ Hb) as [H|H]; [contradiction|].
      apply (@StronglySorted_firstn_skipn _ _ _ _ _ _
               (orders_sorted (create_state_perf_df d)) Ha H).
Qed.

(** X8. The three segment tables agree: the rows of the average table,
    cut down to segment and [customers], are the rows of the customer count
    table, and cut down to segment and [total_revenue], the rows of the
    revenue table. *)
Theorem segment_tables_agree (d : DataFrame) :
  Permutation
    (map (fun t => {| sc_rfm_segment := sa_rfm_segment t;
                      sc_customers := sa_customers t |})
         (create_avg_rev_per_customer_df d))
    (create_rfm_segment_df d)
  /\ Permutation
       (map (fun t => {| sr_rfm_segment := sa_rfm_segment t;
                         sr_total_revenue := sa_total_revenue t |})
            (create_avg_rev_per_customer_df d))
       (create_rfm_revenue_df d).
Proof.
  unfold create_avg_rev_per_customer_df, create_rfm_segment_df,
    create_rfm_revenue_df.
  split.
  - rewrite (Permutation_map _ (sort_values_perm _ _ _ _)), map_map.
    symmetry. apply sort_values_perm.
  - rewrite (Permutation_map _ (sort_values_perm _ _ _ _)), map_map.
    symmetry. apply sort_values_perm.
Qed.

Lemma nunique_le_length (s : list (option string)) :
  (nunique s <= List.length s)%nat.
Proof.
  unfold nunique.
  assert (H1 : forall l, (List.length (unique l) <= List.length l)%nat).
  { induction l as [|x l IH]; simpl; auto.
    pose proof (filter_length_le (fun y => negb (String.eqb x y)) (unique l)).
    lia. }
  assert (H2 : (List.length (dropna s) <= List.length s)%nat).
  { induction s as [|[x|] s IH]; simpl; lia. }
  specialize (H1 (dropna s)). lia.
Qed.

Lemma nunique_incl (s1 s2 : list (option string)) :
  incl s1 s2 -> (nunique s1 <= nunique s2)%nat.
Proof.
  intros H. unfold nunique. apply NoDup_incl_length; [apply unique_NoDup|].
  intros x Hx. apply unique_In, dropna_In. apply H.
  now apply dropna_In, unique_In.
Qed.

(** X9. The KPI counts stay within the data: the orders and the customers
    counted are no more than the rows, no segment has more customers than
    the KPI [total_customers], and no state more orders than the KPI
    [total_orders]. *)
Theorem kpi_counts_bound_tables (d : DataFrame) :
  (total_orders d <= List.length d)%nat
  /\ (total_customers d <= List.length d)%nat
  /\ (forall t, In t (create_rfm_segment_df d) ->
        (sc_customers t <= total_customers d)%nat)
  /\ (forall t, In t (create_state_perf_df d) ->
        (sp_total_orders t <= total_orders d)%nat).
Proof.
  unfold total_orders, total_customers. repeat split.
  - rewrite <- (length_map order_id d). apply nunique_le_length.
  - rewrite <- (length_map customer_unique_id d). apply nunique_le_length.
  - unfold create_rfm_segment_df. intros t Ht.
    apply sorted_table_row in Ht as [k ->]. cbn [sc_customers snd].
    apply nunique_incl. apply incl_map, incl_filter.
  - unfold create_state_perf_df. intros t Ht.
    apply sorted_table_row in Ht as [k ->]. cbn [sp_total_orders snd].
    apply nunique_incl. apply incl_map, incl_filter.
Qed.
End Tables.

Lemma segment_revenue_table_spec_witness :
  StronglySorted revenue_desc
    (create_rfm_revenue_df (S := Insertion) Samples.scenario).
Proof.
  apply (@segment_revenue_table_spec Rational Insertion Rational_spec
           Insertion_spec Samples.scenario).
Defined.

Example segment_revenue_scenario :
  create_rfm_revenue_df (S := Insertion) Samples.scenario
  = [ @Build_SegmentRevenue Rational "Champions" 150;
      @Build_SegmentRevenue Rational "At Risk" 30 ].
Proof. reflexivity. Qed.

Lemma state_charts_top_ten_witness :
  List.length (fig4_data (S := Insertion) Samples.scenario)
  = Nat.min 10
      (List.length (create_state_perf_df (S := Insertion) Samples.scenario)).
Proof.
  apply (@state_charts_top_ten Rational Insertion Rational_spec
           Insertion_spec Samples.scenario).
Defined.

Lemma segment_tables_agree_witness :
  Permutation
    (map (fun t => {| sc_rfm_segment := sa_rfm_segment t;
                      sc_customers := sa_customers t |})
         (create_avg_rev_per_customer_df (S := Insertion)
            Samples.anonymous_segment))
    (create_rfm_segment_df (S := Insertion) Samples.anonymous_segment).
Proof.
  apply (@segment_tables_agree Rational Insertion Insertion_spec
           Samples.anonymous_segment).
Defined.

Lemma kpi_counts_bound_tables_witness :
  let d := Samples.scenario in
  (total_orders d <= List.length d)%nat
  /\ (total_customers d <= List.length d)%nat
  /\ (forall t, In t (create_rfm_segment_df (S := Insertion) d) ->
        (sc_customers t <= total_customers d)%nat)
  /\ (forall t, In t (create_state_perf_df (S := Insertion) d) ->
        (sp_total_orders t <= total_orders d)%nat).
Proof.
  apply (@kpi_counts_bound_tables Rational Insertion Insertion_spec
           Samples.scenario).
Defined.

End TableFacts.

(* ------------------------------------------------------------------ *)
(** ** More on input-file discovery *)

Module DiscoveryOrderFacts.
Import Pandas PandasFacts Dashboard DiscoveryFacts.

(** X10. The file that is picked does not depend on the order in which
    the directory lists its entries. *)
Theorem discover_ignores_listing_order (dir dir' : list string) :
  Permutation dir dir' -> discover dir = discover dir'.
Proof.
  intros Hp. unfold discover.
  assert (E : existsb (String.eqb main_data) dir
              = existsb (String.eqb main_data) dir').
  { apply eq_true_iff_eq. rewrite !main_data_found.
    split; apply Permutation_in; auto. now symmetry. }
  rewrite E. now rewrite (stable_sort_perm_eq (filter_perm is_csv Hp)).
Qed.

Lemma discover_ignores_listing_order_witness :
  discover ["notes.txt"%string; "orders.csv"%string; "customers.csv"%string]
  = discover ["customers.csv"%string; "notes.txt"%string; "orders.csv"%string].
Proof.
  apply discover_ignores_listing_order.
  apply (Permutation_cons_app [_] [_]). apply perm_swap.
Defined.

(** X11. Whatever file is loaded is a [.csv] entry of the directory, and
    the script halts exactly when the directory has no [.csv] entry. *)
Theorem discover_result (dir : list string) :
  (forall name, discover dir = Loaded name ->
     In name dir /\ is_csv name = true)
  /\ ((exists error, discover dir = Halted error)
      <-> forall f, In f dir -> is_csv f = false).
Proof.
  unfold discover.
  destruct (existsb (String.eqb main_data) dir) eqn:E.
  - apply main_data_found in E. split.
    + intros name H. inversion H; subst. split; [exact E|reflexivity].
    + split; [intros [e H]; discriminate|].
      intros H. specialize (H _ E). discriminate.
  - pose proof (stable_sort_perm String.leb (filter is_csv dir)) as Hp.
    destruct (stable_sort String.leb (filter is_csv dir)) as [|x rest].
    + apply Permutation_nil in Hp. split.
      * intros name H. discriminate.
      * split; [|eauto]. intros _ f Hf.
        destruct (is_csv f) eqn:Ef; auto.
        assert (Hin : In f (filter is_csv dir)) by (apply filter_In; auto).
        rewrite Hp in Hin. destruct Hin.
    + assert (Hx : In x (filter is_csv dir))
        by (apply (Permutation_in _ Hp); now left).
      apply filter_In in Hx. split.
      * intros name H. inversion H; subst. exact Hx.
      * split; [intros [e H]; discriminate|].
        intros H. destruct Hx as [Hx1 Hx2]. rewrite (H _ Hx1) in Hx2.
        discriminate.
Qed.

End DiscoveryOrderFacts.


(* ------------------------------------------------------------------ *)
(** ** More on the map *)

Module MapDataFacts.
Import Pandas PandasFacts Dashboard MapFacts Libraries.

Lemma take_In (R : Type) (df : list R) (indices : list nat) (s : list R)
    (r : R) :
  take df indices = Some s -> In r s ->
  exists i, In i indices /\ nth_error df i = Some r.
Proof.
  revert s. induction indices as [|i rest IH]; simpl; intros s E Hr.
  - inversion E; subst. destruct Hr.
  - destruct (nth_error df i) as [x|] eqn:Ex; [|discriminate].
    destruct (take df rest) as [rs|]; [|discriminate].
    inversion E; subst. destruct Hr as [<-|Hr]; [eauto|].
    destruct (IH rs eq_refl Hr) as [j [Hj Ej]]. eauto.
Qed.

Lemma take_NoDup (R : Type) (df : list R) (indices : list nat) (s : list R) :
  NoDup df -> NoDup indices -> take df indices = Some s -> NoDup s.
Proof.
  intros Hdf Hi. revert s. induction Hi as [|i rest Hni Hrest IH]; simpl;
    intros s E.
  - inversion E. constructor.
  - destruct (nth_error df i) as [x|] eqn:Ex; [|discriminate].
    destruct (take df rest) as [rs|] eqn:Et; [|discriminate].
    inversion E; subst. constructor; [|now apply IH].
    intros Hx. destruct (@take_In _ _ _ _ _ Et Hx) as [j [Hj Ej]].
    apply Hni. replace i with j; auto. symmetry.
    apply (proj1 (NoDup_nth_error df) Hdf); [|congruence].
    apply nth_error_Some. congruence.
Qed.

Lemma NoDup_firstn (A : Type) (n : nat) (l : list A) :
  NoDup l -> NoDup (firstn n l).
Proof.
  intros H. rewrite <- (firstn_skipn n l) in H.
  now apply NoDup_app_remove_r in H.
Qed.

Section Generator.
Context {N : Numeric}.
Variable RandomState : Type.
Variable seeded : Z -> RandomState.
Variable permutation : RandomState -> nat -> list nat.

Hypothesis permutation_spec :
  forall rs n, Permutation (permutation rs n) (seq 0 n).

(** X12. [sample] draws without replacement: from rows that are all
    different it returns [n] rows of the dataset that are all different,
    whatever generator it is given; asked for more rows than there are, it
    fails. *)
Theorem sample_without_replacement (R : Type) (n : nat)
    (random_state : option Z) (ambient : RandomState) (df : list R) :
  NoDup df ->
  ((n <= List.length df)%nat ->
     exists s, sample seeded permutation n random_state ambient df = Some s
       /\ List.length s = n /\ NoDup s /\ incl s df)
  /\ ((List.length df < n)%nat ->
      sample seeded permutation n random_state ambient df = None).
Proof.
  intros Hdf. split.
  - intros Hn.
    destruct (@sample_exact _ seeded permutation permutation_spec R n
                random_state ambient df Hn) as [s [Hs [Hlen Hin]]].
    exists s. repeat split; auto.
    unfold sample in Hs.
    destruct (Nat.leb_spec n (List.length df)); [|lia].
    eapply take_NoDup; eauto. apply NoDup_firstn.
    eapply Permutation_NoDup; [symmetry; apply permutation_spec|].
    apply seq_NoDup.
  - intros Hn. unfold sample.
    destruct (Nat.leb_spec n (List.length df)); [lia|reflexivity].
Qed.

(** X13. The map step never fails.  It reports missing geodata exactly
    when a coordinate column is absent or no row has both coordinates;
    otherwise it draws markers only for rows with both coordinates, as many
    as there are such rows up to 3000, and all of them, in their order, when
    they are at most 3000. *)
Theorem map_data_cases (has_geo_columns : bool) (ambient : RandomState)
    (d : DataFrame) :
  df_map seeded permutation has_geo_columns ambient d <> Raised
  /\ (df_map seeded permutation has_geo_columns ambient d = NoGeodata
      <-> has_geo_columns = false \/ dropna_geo d = [])
  /\ (forall s,
        df_map seeded permutation has_geo_columns ambient d = Markers s ->
        List.length s = Nat.min 3000 (List.length (dropna_geo d))
        /\ incl s (dropna_geo d)
        /\ ((List.length (dropna_geo d) <= 3000)%nat -> s = dropna_geo d)).
Proof.
  unfold df_map.
  destruct has_geo_columns; cbn [andb];
    [|repeat split; try discriminate; auto].
  destruct (Nat.ltb_spec 0 (List.length (dropna_geo d))) as [Hpos|Hzero].
  - assert (Hne : dropna_geo d <> [])
      by (intros E; rewrite E in Hpos; simpl in Hpos; lia).
    destruct (Nat.ltb_spec 3000 (List.length (dropna_geo d))) as [Hbig|Hsmall].
    + destruct (@sample_exact _ seeded permutation permutation_spec Row 3000
                  (Some 42%Z) ambient (dropna_geo d)) as [s [Hs [Hlen Hin]]];
        [lia|].
      rewrite Hs. repeat split; try discriminate.
      * intros [H|H]; [discriminate|contradiction].
      * inversion H; subst. lia.
      * inversion H; subst. exact Hin.
      * lia.
    + repeat split; try discriminate.
      * intros [H|H]; [discriminate|contradiction].
      * inversion H; subst. lia.
      * inversion H; subst. apply incl_refl.
      * now inversion H.
  - assert (E : dropna_geo d = [])
      by (destruct (dropna_geo d); simpl in *; [reflexivity|lia]).
    repeat split; try discriminate; auto.
Qed.
End Generator.

Lemma sample_without_replacement_witness :
  ((2 <= List.length Samples.scenario)%nat ->
     exists s, sample (fun _ => tt) Samples.reversal 2 (Some 42%Z) tt
                 Samples.scenario = Some s
       /\ List.length s = 2%nat /\ NoDup s /\ incl s Samples.scenario)
  /\ ((List.length Samples.scenario < 2)%nat ->
      sample (fun _ => tt) Samples.reversal 2 (Some 42%Z) tt
        Samples.scenario = None).
Proof.
  apply (@sample_without_replacement unit (fun _ => tt) Samples.reversal).
  - intros rs n. symmetry. apply Permutation_rev.
  - unfold Samples.scenario.
    repeat constructor; simpl; intuition discriminate.
Defined.

Lemma map_data_cases_witness :
  df_map (fun _ => tt) Samples.reversal true tt Samples.crowd <> Raised
  /\ (df_map (fun _ => tt) Samples.reversal true tt Samples.crowd = NoGeodata
      <-> true = false \/ dropna_geo Samples.crowd = [])
  /\ (forall s,
        df_map (fun _ => tt) Samples.reversal true tt Samples.crowd
        = Markers s ->
        List.length s = Nat.min 3000 (List.length (dropna_geo Samples.crowd))
        /\ incl s (dropna_geo Samples.crowd)
        /\ ((List.length (dropna_geo Samples.crowd) <= 3000)%nat ->
            s = dropna_geo Samples.crowd)).
Proof.
  apply (@map_data_cases Rational unit (fun _ => tt) Samples.reversal).
  intros rs n. symmetry. apply Permutation_rev.
Defined.

End MapDataFacts.


(* ------------------------------------------------------------------ *)
(** ** Column sums of the tables *)

Module ColumnSumFacts.
Import Pandas PandasFacts Dashboard AggregationFacts TableFacts Libraries.

Section Columns.
Context {N : Numeric} {S : Sorter} {SS : SorterSpec S}.


Lemma list_sum_perm (l1 l2 : list nat) :
  Permutation l1 l2 -> list_sum l1 = list_sum l2.
Proof.
  induction 1; simpl; lia.
Qed.

(** The customers of the rows whose key is one of [ks] are no more than
    the customers of each key added up. *)
Lemma nunique_keys_le (by_ : Row -> option string) (d : DataFrame)
    (ks : list string) :
  (nunique (map customer_unique_id
              (filter (fun r => existsb (eq_scalar (by_ r)) ks) d))
   <= list_sum
        (map (fun k => nunique (map customer_unique_id
                                  (filter (fun r => eq_scalar (by_ r) k) d)))
             ks))%nat.
Proof.
  induction ks as [|k ks IH].
  - simpl. replace (filter (fun _ => false) d) with (@nil Row); auto.
    clear. induction d; simpl; auto.
  - cbn [map list_sum]. eapply Nat.le_trans; [|apply Nat.add_le_mono_l, IH].
    unfold nunique. rewrite <- length_app.
    apply NoDup_incl_length; [apply unique_NoDup|].
    intros x Hx. apply unique_In, dropna_In, in_map_iff in Hx as [r [Er Hr]].
    apply filter_In in Hr as [Hr Hk]. cbn [existsb] in Hk.
    apply in_or_app. apply orb_true_iff in Hk as [Hk|Hk]; [left|right];
      apply unique_In, dropna_In, in_map_iff; exists r; split; auto;
      apply filter_In; auto.
Qed.

(** X16. The [customers] column of the segment customer count adds up to
    at least the number of distinct customers among the rows that have a
    segment: a customer with rows in several segments counts in each. *)
Theorem segment_customers_cover (d : DataFrame) :
  (nunique (map customer_unique_id
              (filter (fun r => notna (rfm_segment r)) d))
   <= list_sum (map sc_customers (create_rfm_segment_df d)))%nat.
Proof.
  unfold create_rfm_segment_df.
  rewrite (list_sum_perm (Permutation_map _ (sort_values_perm _ _ _ _))).
  unfold groupby. rewrite !map_map. cbn [sc_customers snd].
  eapply Nat.le_trans; [|apply nunique_keys_le].
  apply nunique_incl, incl_map. intros r Hr.
  apply filter_In in Hr as [Hr Hs]. apply filter_In. split; auto.
  destruct (rfm_segment r) as [k|] eqn:E; [|discriminate].
  apply existsb_exists. exists k. split; [|apply String.eqb_refl].
  rewrite <- groupby_keys. apply groupby_key_In. eauto.
Qed.

End Columns.

Lemma segment_customers_cover_witness :
  (nunique (map customer_unique_id
              (filter (fun r => notna (rfm_segment r)) Samples.scenario))
   <= list_sum (map sc_customers
                  (create_rfm_segment_df (S := Insertion) Samples.scenario)))%nat.
Proof.
  apply (@segment_customers_cover Rational Insertion Insertion_spec
           Samples.scenario).
Defined.

Example segment_customers_counted_twice :
  let d := [ Samples.row "o1" "A" "SP" "Loyal" 10 738000%Z;
             Samples.row "o2" "A" "SP" "Lost" 20 738000%Z ] in
  total_customers d = 1%nat
  /\ list_sum (map sc_customers (create_rfm_segment_df (S := Insertion) d))
     = 2%nat.
Proof. split; reflexivity. Qed.

End ColumnSumFacts.


(* ------------------------------------------------------------------ *)
(** ** The choices of the select boxes *)

Module OptionFacts.
Import Pandas PandasFacts Dashboard FilterFacts SidebarFacts Libraries.

Section Options.
Context {N : Numeric}.


Lemma dated_within_bounds (df : DataFrame) (lo hi : Date) (r : Row)
    (t : Timestamp) :
  min_date df = Some lo -> max_date df = Some hi ->
  In r df -> order_purchase_timestamp r = Some t ->
  (lo <= ts_date t <= hi)%Z.
Proof.
  unfold min_date, max_date, dt_date. intros Hlo Hhi Hr Et.
  destruct (ts_min (map order_purchase_timestamp df)) as [m|] eqn:Em;
    [|discriminate].
  destruct (ts_max (map order_purchase_timestamp df)) as [M|] eqn:EM;
    [|discriminate].
  inversion Hlo; inversion Hhi; subst.
  assert (Hin : In (Some t) (map order_purchase_timestamp df))
    by (rewrite <- Et; now apply in_map).
  destruct (ts_min_least _ Em) as [_ Hmin].
  destruct (ts_max_greatest _ EM) as [_ Hmax].
  split; auto.
Qed.

(** X17. When every row has a purchase timestamp, every choice a select
    box offers shows some row under the date range the picker starts
    from. *)
Theorem offered_choice_shows_rows (df : DataFrame) (lo hi : Date) :
  (forall r, In r df -> order_purchase_timestamp r <> None) ->
  min_date df = Some lo -> max_date df = Some hi ->
  (forall state, In state (state_opt df) -> df_f df lo hi state All <> [])
  /\ (forall seg, In seg (seg_opt df) -> df_f df lo hi All seg <> []).
Proof.
  intros Hdated Hlo Hhi.
  assert (Hkeep : forall r st sg,
             In r df ->
             st = All \/ customer_state r = Some st ->
             sg = All \/ rfm_segment r = Some sg ->
             df_f df lo hi st sg <> []).
  { intros r st sg Hr Hst Hsg E.
    assert (Hin : In r (df_f df lo hi st sg)); [|rewrite E in Hin; destruct Hin].
    rewrite df_f_filter. apply filter_In. split; auto.
    apply keepsb_keeps. unfold keeps.
    destruct (order_purchase_timestamp r) as [t|] eqn:Et;
      [|now apply Hdated in Et].
    repeat split; auto. exists t. split; auto.
    eapply dated_within_bounds; eauto. }
  assert (Hsome : exists r, In r df).
  { destruct df as [|r df]; [discriminate|]. exists r. now left. }
  destruct Hsome as [r0 Hr0].
  split.
  - intros state [<-|Hs]; [apply (Hkeep r0); auto|].
    apply (options_sorted_present customer_state df) in Hs as [r [Hr E]].
    apply (Hkeep r); auto.
  - intros seg [<-|Hs]; [apply (Hkeep r0); auto|].
    apply (options_sorted_present rfm_segment df) in Hs as [r [Hr E]].
    apply (Hkeep r); auto.
Qed.

End Options.

Lemma offered_choice_shows_rows_witness :
  (forall state, In state (state_opt Samples.scenario) ->
     df_f Samples.scenario 738000%Z 738000%Z state All <> [])
  /\ (forall seg, In seg (seg_opt Samples.scenario) ->
       df_f Samples.scenario 738000%Z 738000%Z All seg <> []).
Proof.
  apply (@offered_choice_shows_rows Rational Samples.scenario 738000%Z
           738000%Z).
  - intros r [<-|[<-|[<-|[]]]]; discriminate.
  - reflexivity.
  - reflexivity.
Defined.

End OptionFacts.

